(** * AG Grid wrapper for Reflex: the event-adaptation layer

    The Python module [lt_reflex_ag_grid_wrapper/ag_grid.py] does not run the
    event adapters itself: each "event spec" function builds the text of
    browser-side JavaScript expressions, one per payload element, which the
    host framework evaluates when the grid fires the native event.

    The development therefore has three layers:
    - [Py]: the Python functions, as functions on strings (the generated
      JavaScript text), and [AgGrid.create] / [AgGridAPI.__getattr__];
    - [Js]: the fragment of JavaScript those texts are written in, as an
      abstract syntax with a printer and an evaluator over a model of
      browser values;
    - [Adapter]: for every event handler its syntax tree, proved to print to
      exactly the text the Python function generates, and its payload
      obtained by evaluating that tree on a native event. *)

From Stdlib Require Import ZArith String List Bool Sorted.
From stdpp Require Import base option list strings gmap.

Local Open Scope Z_scope.
#[local] Set Warnings "-register-all".
#[local] Set Warnings "-automation".
#[local] Set Default Proof Using "Type".

(** ** The Python layer: generated JavaScript text *)

Module Py.

(** [_var_type] of an [rx.Var]; only the two types the module uses. *)
Inductive var_type := AnyT | EventChainT.

(** [rx.Var(js_expr, _var_type=...)]: a JavaScript expression and its type. *)
Record Var := mkVar { _js_expr : string; _var_type : var_type }.

(** [rx.Var(s)]: the type is left at its default. *)
Definition rx_Var (s : string) : Var := mkVar s AnyT.

(** [f"{event}"]: a Var without state data formats as its expression. *)
Definition fmt (v : Var) : string := _js_expr v.

(** [js_expr: str | list[str]], the argument of [arrow_callback]. *)
Inductive js_source := OneExpr (s : string) | ManyExprs (l : list string).

Definition callback_content (iterable : list string) : string :=
  String.concat "; " iterable.

Definition arrow_callback (js_expr : js_source) : Var :=
  let js_expr :=
    match js_expr with
    | ManyExprs l => callback_content l
    | OneExpr s => s
    end in
  rx_Var ("(() => {" +:+ js_expr +:+ "})()").

Definition exclude_non_serializable_keys
    (event : Var) (exclude_keys : list string) : list string :=
  let exclude_keys_str := String.concat ", " exclude_keys in
  [ "let {" +:+ exclude_keys_str +:+ ", ...rest} = " +:+ fmt event;
    "return rest" ].

(** *** Event spec functions *)

Definition cell_exclude_keys : list string :=
  ["context"; "api"; "columnApi"; "column"; "node"; "event"; "eventPath"].

Definition _on_cell_event_spec (event : Var) : list Var :=
  let exclude_keys := cell_exclude_keys in
  [arrow_callback (ManyExprs (exclude_non_serializable_keys event exclude_keys))].

Definition row_exclude_keys : list string :=
  ["context"; "api"; "source"; "node"; "event"; "eventPath"].

Definition _on_row_event_spec (event : Var) : list Var :=
  let exclude_keys := row_exclude_keys in
  [arrow_callback (ManyExprs (exclude_non_serializable_keys event exclude_keys))].

Definition _on_selection_change_spec (event : Var) : list Var :=
  [ rx_Var (fmt event +:+ ".api.getSelectedRows()");
    rx_Var (fmt event +:+ ".source");
    rx_Var (fmt event +:+ ".type") ].

Definition _on_cell_value_changed_spec (event : Var) : list Var :=
  [ rx_Var ("(() => {let {rowIndex, ...rest} = " +:+ fmt event +:+ "; return rowIndex})()");
    rx_Var ("(() => {let {colDef, ...rest} = " +:+ fmt event +:+ "; return colDef.field})()");
    rx_Var ("(() => {let {newValue, ...rest} = " +:+ fmt event +:+ "; return newValue})()") ].

Definition _on_cell_editing_spec (event : Var) : list Var :=
  [ rx_Var ("(() => {let {rowIndex, ...rest} = " +:+ fmt event +:+ "; return rowIndex})()");
    rx_Var ("(() => {let {colDef, ...rest} = " +:+ fmt event +:+ "; return colDef.field})()");
    rx_Var ("(() => {let {value, ...rest} = " +:+ fmt event +:+ "; return value})()") ].

Definition _on_row_editing_spec (event : Var) : list Var :=
  [ rx_Var ("(() => {let {rowIndex, ...rest} = " +:+ fmt event +:+ "; return rowIndex})()");
    rx_Var (fmt event +:+ ".data") ].

Definition _on_sort_changed_spec (event : Var) : list Var :=
  [ rx_Var (fmt event +:+ ".api.getColumnState().filter(c => c.sort).map(c => ({colId: c.colId, sort: c.sort, sortIndex: c.sortIndex}))") ].

Definition _on_filter_changed_spec (event : Var) : list Var :=
  [ rx_Var (fmt event +:+ ".api.getFilterModel()") ].

Definition _on_pagination_changed_spec (event : Var) : list Var :=
  [ rx_Var (fmt event +:+ ".api.paginationGetCurrentPage()");
    rx_Var (fmt event +:+ ".api.paginationGetTotalPages()");
    rx_Var (fmt event +:+ ".api.paginationGetPageSize()") ].

Definition column_exclude_keys : list string :=
  ["context"; "api"; "columnApi"; "column"; "columns"; "source"].

Definition _on_column_event_spec (event : Var) : list Var :=
  let exclude_keys := column_exclude_keys in
  [arrow_callback (ManyExprs (exclude_non_serializable_keys event exclude_keys))].

Definition _on_row_selected_spec (event : Var) : list Var :=
  [ rx_Var (fmt event +:+ ".data");
    rx_Var (fmt event +:+ ".node.isSelected()");
    rx_Var ("(() => {let {rowIndex, ...rest} = " +:+ fmt event +:+ "; return rowIndex})()") ].

Definition _on_cell_focused_spec (event : Var) : list Var :=
  [ rx_Var (fmt event +:+ ".rowIndex");
    rx_Var ("(() => {let {column, ...rest} = " +:+ fmt event +:+ "; return column?.colId})()") ].

Definition _on_body_scroll_spec (event : Var) : list Var :=
  [ rx_Var (fmt event +:+ ".direction");
    rx_Var (fmt event +:+ ".left");
    rx_Var (fmt event +:+ ".top") ].

Definition _on_grid_size_changed_spec (event : Var) : list Var :=
  [ rx_Var (fmt event +:+ ".clientWidth");
    rx_Var (fmt event +:+ ".clientHeight") ].

(** [lambda e0: [e0]], the spec of the pass-through handlers. *)
Definition passthrough_spec (e0 : Var) : list Var := [e0].

(** *** Auto-size columns event chain *)

Definition size_columns_to_fit : Var :=
  mkVar "(event) => event.api.sizeColumnsToFit()" EventChainT.

(** *** The event handlers declared by class [AgGrid] *)

Inductive handler :=
  | on_grid_ready | on_grid_pre_destroyed | on_first_data_rendered
  | on_grid_size_changed
  | on_cell_clicked | on_cell_double_clicked | on_cell_focused
  | on_cell_value_changed
  | on_cell_editing_started | on_cell_editing_stopped
  | on_row_editing_started | on_row_editing_stopped
  | on_row_clicked | on_row_double_clicked | on_row_selected
  | on_selection_changed | on_row_data_updated
  | on_column_resized | on_column_moved | on_column_visible | on_column_pinned
  | on_new_columns_loaded | on_displayed_columns_changed
  | on_sort_changed | on_filter_changed
  | on_pagination_changed
  | on_body_scroll | on_body_scroll_end
  | on_model_updated | on_viewport_changed.

(** [on_xxx: rx.EventHandler[spec]]: the spec each handler is declared with. *)
Definition args_spec (h : handler) : Var -> list Var :=
  match h with
  | on_grid_ready => passthrough_spec
  | on_grid_pre_destroyed => passthrough_spec
  | on_first_data_rendered => passthrough_spec
  | on_grid_size_changed => _on_grid_size_changed_spec
  | on_cell_clicked => _on_cell_event_spec
  | on_cell_double_clicked => _on_cell_event_spec
  | on_cell_focused => _on_cell_focused_spec
  | on_cell_value_changed => _on_cell_value_changed_spec
  | on_cell_editing_started => _on_cell_editing_spec
  | on_cell_editing_stopped => _on_cell_editing_spec
  | on_row_editing_started => _on_row_editing_spec
  | on_row_editing_stopped => _on_row_editing_spec
  | on_row_clicked => _on_row_event_spec
  | on_row_double_clicked => _on_row_event_spec
  | on_row_selected => _on_row_selected_spec
  | on_selection_changed => _on_selection_change_spec
  | on_row_data_updated => passthrough_spec
  | on_column_resized => _on_column_event_spec
  | on_column_moved => _on_column_event_spec
  | on_column_visible => _on_column_event_spec
  | on_column_pinned => _on_column_event_spec
  | on_new_columns_loaded => passthrough_spec
  | on_displayed_columns_changed => passthrough_spec
  | on_sort_changed => _on_sort_changed_spec
  | on_filter_changed => _on_filter_changed_spec
  | on_pagination_changed => _on_pagination_changed_spec
  | on_body_scroll => _on_body_scroll_spec
  | on_body_scroll_end => _on_body_scroll_spec
  | on_model_updated => passthrough_spec
  | on_viewport_changed => passthrough_spec
  end.

(** *** Python values passed as props and call arguments *)

(** [rx.color_mode_cond] and [rx.match] build Vars that the browser
    resolves; they are kept as the terms the source writes.  The cases of
    the one [rx.match] in this module are keyed by string literals. *)
Inductive pyval :=
  | PNone
  | PBool (b : bool)
  | PInt (n : Z)
  | PStr (s : string)
  | PVar (v : Var)
  | PList (items : list pyval)
  | PDict (items : list (string * pyval))
  | PColorModeCond (light dark : pyval)
  | PMatch (cond : pyval) (cases : list (string * pyval)) (default : pyval).

Definition rx_color_mode_cond (light dark : string) : pyval :=
  PColorModeCond (PStr light) (PStr dark).

Definition rx_match (cond : pyval) (cases : list (string * pyval)) (default : pyval) : pyval :=
  PMatch cond cases default.

Inductive color_mode := Light | Dark.

(** What a class-name term resolves to in the browser, for a condition that
    is a Python literal ([None]: the condition is a state Var, whose value
    is only known at run time). *)
Fixpoint resolve (mode : color_mode) (v : pyval) : option pyval :=
  match v with
  | PColorModeCond light dark =>
      match mode with Light => resolve mode light | Dark => resolve mode dark end
  | PMatch cond cases default =>
      match cond with
      | PVar _ | PColorModeCond _ _ | PMatch _ _ _ => None
      | PStr s =>
          (fix first_case (cs : list (string * pyval)) : option pyval :=
             match cs with
             | [] => resolve mode default
             | (k, r) :: cs' =>
                 if String.eqb s k then resolve mode r else first_case cs'
             end) cases
      | _ => resolve mode default
      end
  | _ => Some v
  end.

(** *** Grid API class for imperative operations *)

Record AgGridAPI := mkAgGridAPI { ref : string }.

(** [rx.call_script(javascript_code, **kwargs)]: the event it returns. *)
Record EventSpec := call_script {
  javascript_code : string;
  script_kwargs : list (string * pyval)
}.

(** Property [_api]. *)
Definition _api (self : AgGridAPI) : string :=
  "refs['" +:+ ref self +:+ "']?.current?.api".

(** What looking up an attribute on an [AgGridAPI] instance gives. *)
Inductive attribute :=
  | InstanceAttr (v : string)       (* [self.ref], [self._api] *)
  | ClassAttr (name : string)       (* a method or attribute found on the class *)
  | DynamicCall (call : list pyval -> list (string * pyval) -> EventSpec).

Section Framework.

(** The host framework's [rx.utils.format.to_camel_case],
    [rx.utils.format.format_ref] and [rx.Var.create], and the attribute
    names every Python object answers without [__getattr__]. *)
Variable to_camel_case : string -> string.
Variable format_ref : string -> string.
Variable Var_create : pyval -> Var.
Variable object_attrs : list string.

(** Classmethod [AgGridAPI.create]. *)
Definition AgGridAPI_create (id : string) : AgGridAPI :=
  mkAgGridAPI (format_ref id).

(** [AgGridAPI.__getattr__(self, name)]: the closure [_call_api]. *)
Definition __getattr__ (self : AgGridAPI) (name : string)
  : list pyval -> list (string * pyval) -> EventSpec :=
  fun args kwargs =>
    let var_args := List.map (fun arg => fmt (Var_create arg)) args in
    call_script
      (_api self +:+ "." +:+ to_camel_case name +:+ "("
         +:+ String.concat ", " var_args +:+ ")")
      kwargs.

(** The names defined in the body of class [AgGridAPI]. *)
Definition class_attrs : list string :=
  ["__init__"; "create"; "_api"; "__getattr__"].

(** [getattr(self, name)]: Python calls [__getattr__] only when the
    ordinary lookup (instance, class, [object]) finds nothing. *)
Definition getattr (self : AgGridAPI) (name : string) : attribute :=
  if String.eqb name "ref" then InstanceAttr (ref self)
  else if String.eqb name "_api" then InstanceAttr (_api self)
  else if bool_decide (name ∈ class_attrs ++ object_attrs) then ClassAttr name
  else DynamicCall (__getattr__ self name).

End Framework.

(** *** Main AG Grid component *)

(** A component, as the children and the props that the framework's
    [Component.create] is called with. *)
Record Component := mkComponent {
  children : list pyval;
  props : gmap string pyval
}.

(** The grid options class [AgGrid] declares with a default other than
    [None]. *)
Definition class_default (name : string) : option pyval :=
  if String.eqb name "default_col_def" then Some (PDict [])
  else if String.eqb name "row_selection" then Some (PDict [("mode", PStr "singleRow")])
  else if String.eqb name "pagination" then Some (PBool false)
  else if String.eqb name "theme" then Some (PStr "legacy")
  else None.

(** The value of grid option [name] on a component: the prop it was created
    with, else the class-level default. *)
Definition grid_option (c : Component) (name : string) : option pyval :=
  match props c !! name with
  | Some v => Some v
  | None => class_default name
  end.

Definition theme_cases : list (string * pyval) :=
  [ ("quartz", rx_color_mode_cond "ag-theme-quartz" "ag-theme-quartz-dark");
    ("balham", rx_color_mode_cond "ag-theme-balham" "ag-theme-balham-dark");
    ("alpine", rx_color_mode_cond "ag-theme-alpine" "ag-theme-alpine-dark");
    ("material", rx_color_mode_cond "ag-theme-material" "ag-theme-material-dark") ].

(** Classmethod [AgGrid.create(cls, *children, id, **props)]. *)
Definition AgGrid_create (children : list pyval) (id : string)
    (props : gmap string pyval) : Component :=
  let props := <["id" := PStr id]> props in
  let theme := default (PStr "quartz") (props !! "theme") in
  let props := delete "theme" props in
  let props := <["class_name" := rx_match theme theme_cases (PStr "")]> props in
  let props :=
    match props !! "auto_size_strategy" with
    | Some _ => <["on_grid_ready" := PVar size_columns_to_fit]> props
    | None => props
    end in
  mkComponent children props.

(** The class name the specification expects for a theme value: one of the
    four light/dark pairs, the empty string for any other literal; for a
    theme that is itself a Var the choice is made in the browser. *)
Definition theme_class_name (mode : color_mode) (theme : pyval) : option pyval :=
  let pair (light dark : string) :=
    PStr match mode with Light => light | Dark => dark end in
  match theme with
  | PStr s =>
      Some (if String.eqb s "quartz" then pair "ag-theme-quartz" "ag-theme-quartz-dark"
            else if String.eqb s "balham" then pair "ag-theme-balham" "ag-theme-balham-dark"
            else if String.eqb s "alpine" then pair "ag-theme-alpine" "ag-theme-alpine-dark"
            else if String.eqb s "material" then pair "ag-theme-material" "ag-theme-material-dark"
            else PStr "")
  | PVar _ | PColorModeCond _ _ | PMatch _ _ _ => None
  | _ => Some (PStr "")
  end.

(** The names an [AgGridAPI] instance answers without [__getattr__]. *)
Definition defined_names (object_attrs : list string) : list string :=
  "ref" :: class_attrs ++ object_attrs.

End Py.

(** ** The JavaScript fragment of the generated text *)

Module Js.

(** *** Browser values *)

(** A live browser-side object (the grid API, a row node, a DOM event, ...)
    is known to a value only as a handle; what the object answers when
    queried is the business of the [world].  A value that holds a handle
    cannot be serialized. *)
Definition handle := nat.

(** Numbers are the integral ones (row indexes, page counts, sort indexes). *)
Inductive value :=
  | JUndefined
  | JNull
  | JBool (b : bool)
  | JNum (n : Z)
  | JStr (s : string)
  | JArr (items : list value)
  | JObj (fields : list (string * value))
  | JHost (h : handle).

(** Own properties of a plain object, in insertion order. *)
Abbreviation fields := (list (string * value)).

Fixpoint get (k : string) (fs : fields) : option value :=
  match fs with
  | [] => None
  | (k', v) :: fs' => if String.eqb k k' then Some v else get k fs'
  end.

(** [o.k] on a plain object: a missing property reads as [undefined]. *)
Definition prop (k : string) (fs : fields) : value :=
  default JUndefined (get k fs).

(** What rest-destructuring leaves: the properties not named in the pattern. *)
Definition omit (keys : list string) (fs : fields) : fields :=
  List.filter (fun kv => negb (bool_decide (fst kv ∈ keys))) fs.

Definition nullish (v : value) : bool :=
  match v with JUndefined | JNull => true | _ => false end.

(** ToBoolean. *)
Definition truthy (v : value) : bool :=
  match v with
  | JUndefined | JNull => false
  | JBool b => b
  | JNum n => negb (n =? 0)
  | JStr s => negb (String.eqb s "")
  | JArr _ | JObj _ | JHost _ => true
  end.

(** *** The live grid *)

(** The answers of the grid API object at the time of the call. *)
Record GridApi := mkGridApi {
  getSelectedRows : list value;
  getColumnState : list value;
  getFilterModel : value;
  paginationGetCurrentPage : value;
  paginationGetTotalPages : value;
  paginationGetPageSize : value
}.

Inductive host :=
  | HApi (g : GridApi)          (* the grid API object *)
  | HNode (isSelected : bool)   (* a row node *)
  | HOpaque.                    (* context, DOM event, ... *)

Abbreviation world := (gmap handle host).

(** *** Outcomes *)

Inductive js_error := TypeError | ReferenceError | SyntaxError.

(** [Beyond]: the evaluation leaves the fragment modelled here (a property
    of a string, a method of a plain object, ...); nothing is claimed. *)
Inductive outcome (A : Type) :=
  | Val (a : A)
  | Throw (e : js_error)
  | Beyond.
Arguments Val {A} a.
Arguments Throw {A} e.
Arguments Beyond {A}.

Definition bind {A B} (m : outcome A) (k : A -> outcome B) : outcome B :=
  match m with
  | Val a => k a
  | Throw e => Throw e
  | Beyond => Beyond
  end.

#[global] Instance outcome_bind : MBind outcome := fun A B k m => bind m k.
#[global] Instance outcome_ret : MRet outcome := fun A a => Val a.

Fixpoint map_out {A B} (f : A -> outcome B) (l : list A) : outcome (list B) :=
  match l with
  | [] => Val []
  | a :: l' => b ← f a; bs ← map_out f l'; Val (b :: bs)
  end.

Fixpoint filter_out {A} (f : A -> outcome bool) (l : list A) : outcome (list A) :=
  match l with
  | [] => Val []
  | a :: l' =>
      b ← f a; r ← filter_out f l'; Val (if b : bool then a :: r else r)
  end.

(** *** Member access and method calls *)

(** [v.p] *)
Definition member (v : value) (p : string) : outcome value :=
  match v with
  | JUndefined | JNull => Throw TypeError
  | JObj fs => Val (prop p fs)
  | _ => Beyond
  end.

(** [v.m()] *)
Definition call0 (w : world) (v : value) (m : string) : outcome value :=
  match v with
  | JUndefined | JNull => Throw TypeError
  | JHost h =>
      match w !! h with
      | Some (HApi g) =>
          if String.eqb m "getSelectedRows" then Val (JArr (getSelectedRows g))
          else if String.eqb m "getColumnState" then Val (JArr (getColumnState g))
          else if String.eqb m "getFilterModel" then Val (getFilterModel g)
          else if String.eqb m "paginationGetCurrentPage" then Val (paginationGetCurrentPage g)
          else if String.eqb m "paginationGetTotalPages" then Val (paginationGetTotalPages g)
          else if String.eqb m "paginationGetPageSize" then Val (paginationGetPageSize g)
          else Beyond
      | Some (HNode b) =>
          if String.eqb m "isSelected" then Val (JBool b) else Beyond
      | _ => Beyond
      end
  | _ => Beyond
  end.

(** *** Syntax *)

Inductive expr :=
  | EVar (x : string)                               (* x *)
  | EDot (e : expr) (p : string)                    (* e.p *)
  | EOptDot (e : expr) (p : string)                 (* e?.p *)
  | ECall0 (e : expr) (m : string)                  (* e.m() *)
  | EFilter (e : expr) (c : string) (body : expr)   (* e.filter(c => body) *)
  | EMap (e : expr) (c : string) (body : expr)      (* e.map(c => (body)) *)
  | EObject (props : list (string * expr))          (* {k: e, ...} *)
  | ELetRest (keys : list string) (init ret : expr).
      (* (() => {let {keys, ...rest} = init; return ret})() *)

Fixpoint show (e : expr) : string :=
  match e with
  | EVar x => x
  | EDot e p => show e +:+ "." +:+ p
  | EOptDot e p => show e +:+ "?." +:+ p
  | ECall0 e m => show e +:+ "." +:+ m +:+ "()"
  | EFilter e c body => show e +:+ ".filter(" +:+ c +:+ " => " +:+ show body +:+ ")"
  | EMap e c body => show e +:+ ".map(" +:+ c +:+ " => (" +:+ show body +:+ "))"
  | EObject props =>
      "{" +:+ String.concat ", " (List.map (fun kv => fst kv +:+ ": " +:+ show (snd kv)) props) +:+ "}"
  | ELetRest keys init ret =>
      "(() => {let {" +:+ String.concat ", " keys +:+ ", ...rest} = " +:+ show init
        +:+ "; return " +:+ show ret +:+ "})()"
  end.

(** *** Evaluation *)

(** A binding is [None] between the start of its block and its [let]
    (the temporal dead zone): reading it throws. *)
Abbreviation env := (list (string * option value)).

Fixpoint lookup_var (x : string) (ρ : env) : option (option value) :=
  match ρ with
  | [] => None
  | (y, b) :: ρ' => if String.eqb x y then Some b else lookup_var x ρ'
  end.

Definition read_var (x : string) (ρ : env) : outcome value :=
  match lookup_var x ρ with
  | Some (Some v) => Val v
  | _ => Throw ReferenceError
  end.

(** The names a [let {keys, ...rest}] pattern declares. *)
Definition declared (keys : list string) : list string := keys ++ ["rest"].

Definition dead_zone (names : list string) : env :=
  List.map (fun x => (x, None)) names.

(** The bindings after [let {keys, ...rest} = JObj fs]. *)
Definition destructure (keys : list string) (fs : fields) : env :=
  List.map (fun k => (k, Some (prop k fs))) keys ++ [("rest", Some (JObj (omit keys fs)))].

Fixpoint eval (w : world) (ρ : env) (e : expr) {struct e} : outcome value :=
  match e with
  | EVar x => read_var x ρ
  | EDot e p => v ← eval w ρ e; member v p
  | EOptDot e p =>
      v ← eval w ρ e; if nullish v then Val JUndefined else member v p
  | ECall0 e m => v ← eval w ρ e; call0 w v m
  | EFilter e c body =>
      v ← eval w ρ e;
      match v with
      | JArr items =>
          kept ← filter_out
                    (fun x => b ← eval w ((c, Some x) :: ρ) body; Val (truthy b))
                    items;
          Val (JArr kept)
      | JUndefined | JNull => Throw TypeError
      | _ => Beyond
      end
  | EMap e c body =>
      v ← eval w ρ e;
      match v with
      | JArr items =>
          out ← map_out (fun x => eval w ((c, Some x) :: ρ) body) items;
          Val (JArr out)
      | JUndefined | JNull => Throw TypeError
      | _ => Beyond
      end
  | EObject props =>
      if bool_decide (NoDup (List.map fst props)) then
        fs ← (fix go (ps : list (string * expr)) : outcome fields :=
                 match ps with
                 | [] => Val []
                 | (k, e) :: ps' =>
                     v ← eval w ρ e; fs ← go ps'; Val ((k, v) :: fs)
                 end) props;
        Val (JObj fs)
      else Beyond
  | ELetRest keys init ret =>
      if bool_decide (NoDup (declared keys)) then
        v ← eval w (dead_zone (declared keys) ++ ρ) init;
        match v with
        | JObj fs => eval w (destructure keys fs ++ ρ) ret
        | JUndefined | JNull => Throw TypeError
        | _ => Beyond
        end
      else Throw SyntaxError
  end.

End Js.

(** ** The adapters: syntax trees of the generated text, and their payloads *)

Module Adapter.
Import Py Js.

(** [(() => {let {keys, ...rest} = ev; return rest})()] *)
Definition strip (keys : list string) (ev : expr) : expr :=
  ELetRest keys ev (EVar "rest").

(** [(() => {let {key, ...rest} = ev; return ret})()] *)
Definition pick (key : string) (ev ret : expr) : expr :=
  ELetRest [key] ev ret.

Definition cell_event_ast (ev : expr) : list expr :=
  [strip cell_exclude_keys ev].

Definition row_event_ast (ev : expr) : list expr :=
  [strip row_exclude_keys ev].

Definition selection_change_ast (ev : expr) : list expr :=
  [ ECall0 (EDot ev "api") "getSelectedRows";
    EDot ev "source";
    EDot ev "type" ].

Definition cell_value_changed_ast (ev : expr) : list expr :=
  [ pick "rowIndex" ev (EVar "rowIndex");
    pick "colDef" ev (EDot (EVar "colDef") "field");
    pick "newValue" ev (EVar "newValue") ].

Definition cell_editing_ast (ev : expr) : list expr :=
  [ pick "rowIndex" ev (EVar "rowIndex");
    pick "colDef" ev (EDot (EVar "colDef") "field");
    pick "value" ev (EVar "value") ].

Definition row_editing_ast (ev : expr) : list expr :=
  [ pick "rowIndex" ev (EVar "rowIndex");
    EDot ev "data" ].

Definition sort_entry_ast : expr :=
  EObject [ ("colId", EDot (EVar "c") "colId");
            ("sort", EDot (EVar "c") "sort");
            ("sortIndex", EDot (EVar "c") "sortIndex") ].

Definition sort_changed_ast (ev : expr) : list expr :=
  [ EMap (EFilter (ECall0 (EDot ev "api") "getColumnState")
                  "c" (EDot (EVar "c") "sort"))
         "c" sort_entry_ast ].

Definition filter_changed_ast (ev : expr) : list expr :=
  [ ECall0 (EDot ev "api") "getFilterModel" ].

Definition pagination_changed_ast (ev : expr) : list expr :=
  [ ECall0 (EDot ev "api") "paginationGetCurrentPage";
    ECall0 (EDot ev "api") "paginationGetTotalPages";
    ECall0 (EDot ev "api") "paginationGetPageSize" ].

Definition column_event_ast (ev : expr) : list expr :=
  [strip column_exclude_keys ev].

Definition row_selected_ast (ev : expr) : list expr :=
  [ EDot ev "data";
    ECall0 (EDot ev "node") "isSelected";
    pick "rowIndex" ev (EVar "rowIndex") ].

Definition cell_focused_ast (ev : expr) : list expr :=
  [ EDot ev "rowIndex";
    pick "column" ev (EOptDot (EVar "column") "colId") ].

Definition body_scroll_ast (ev : expr) : list expr :=
  [ EDot ev "direction"; EDot ev "left"; EDot ev "top" ].

Definition grid_size_changed_ast (ev : expr) : list expr :=
  [ EDot ev "clientWidth"; EDot ev "clientHeight" ].

Definition passthrough_ast (ev : expr) : list expr := [ev].

Definition args_ast (h : handler) : expr -> list expr :=
  match h with
  | on_grid_ready | on_grid_pre_destroyed | on_first_data_rendered
  | on_row_data_updated | on_new_columns_loaded
  | on_displayed_columns_changed | on_model_updated
  | on_viewport_changed => passthrough_ast
  | on_grid_size_changed => grid_size_changed_ast
  | on_cell_clicked | on_cell_double_clicked => cell_event_ast
  | on_cell_focused => cell_focused_ast
  | on_cell_value_changed => cell_value_changed_ast
  | on_cell_editing_started | on_cell_editing_stopped => cell_editing_ast
  | on_row_editing_started | on_row_editing_stopped => row_editing_ast
  | on_row_clicked | on_row_double_clicked => row_event_ast
  | on_row_selected => row_selected_ast
  | on_selection_changed => selection_change_ast
  | on_column_resized | on_column_moved | on_column_visible
  | on_column_pinned => column_event_ast
  | on_sort_changed => sort_changed_ast
  | on_filter_changed => filter_changed_ast
  | on_pagination_changed => pagination_changed_ast
  | on_body_scroll | on_body_scroll_end => body_scroll_ast
  end.

(** The payload of handler [h]: the host framework calls the handler's spec
    with the Var [x] naming the native event, and the browser evaluates each
    generated expression with [x] bound to the native event [e], against the
    live grid [w]. *)
Definition payload (h : handler) (x : string) (w : world) (e : value)
  : outcome (list value) :=
  map_out (eval w [(x, Some e)]) (args_ast h (EVar x)).

(** The names that the [let] patterns of an expression declare.  The
    framework's name for the native event must not be one of them: inside
    the block the name would denote the not yet initialised binding. *)
Fixpoint let_names (e : expr) : list string :=
  match e with
  | EVar _ => []
  | EDot e _ | EOptDot e _ | ECall0 e _ => let_names e
  | EFilter e _ body | EMap e _ body => let_names e ++ let_names body
  | EObject props => concat (List.map (fun kv => let_names (snd kv)) props)
  | ELetRest keys init ret => declared keys ++ let_names init ++ let_names ret
  end.

Definition event_var_ok (h : handler) (x : string) : Prop :=
  x ∉ concat (List.map let_names (args_ast h (EVar x))).

(** *** Groups of handlers *)

Definition passthrough_handlers : list handler :=
  [ on_grid_ready; on_grid_pre_destroyed; on_first_data_rendered;
    on_row_data_updated; on_new_columns_loaded;
    on_displayed_columns_changed; on_model_updated; on_viewport_changed ].

Inductive strip_category := CellInteraction | RowInteraction | ColumnStructural.

Definition strip_handlers (c : strip_category) : list handler :=
  match c with
  | CellInteraction => [on_cell_clicked; on_cell_double_clicked]
  | RowInteraction => [on_row_clicked; on_row_double_clicked]
  | ColumnStructural =>
      [on_column_resized; on_column_moved; on_column_visible; on_column_pinned]
  end.

(** The keys a strip category's expression names in its pattern. *)
Definition pattern_keys (c : strip_category) : list string :=
  match c with
  | CellInteraction => cell_exclude_keys
  | RowInteraction => row_exclude_keys
  | ColumnStructural => column_exclude_keys
  end.

(** The excluded keys of each stripping category, as the specification
    lists them. *)
Definition excluded_keys (c : strip_category) : list string :=
  match c with
  | CellInteraction =>
      ["context"; "api"; "columnApi"; "column"; "node"; "event"; "eventPath"]
  | RowInteraction =>
      ["context"; "api"; "source"; "node"; "event"; "eventPath"]
  | ColumnStructural =>
      ["context"; "api"; "columnApi"; "column"; "columns"; "source"]
  end.

(** *** Well-formed native events *)

Definition is_object (v : value) : bool :=
  match v with JObj _ => true | _ => false end.

Definition has_api (w : world) (fs : fields) : bool :=
  match get "api" fs with
  | Some (JHost a) => match w !! a with Some (HApi _) => true | _ => false end
  | _ => false
  end.

(** The shape each handler's rule assumes of the native event (an object
    with fields [fs]) and of the live grid: the event carries the grid API
    where the rule queries it, a row node where it asks the node, a column
    definition where it reads the field name; the grid's column state is a
    list of objects; the focused column is an object or absent. *)
Definition well_formed (h : handler) (w : world) (fs : fields) : bool :=
  match h with
  | on_selection_changed | on_filter_changed | on_pagination_changed =>
      has_api w fs
  | on_sort_changed =>
      match get "api" fs with
      | Some (JHost a) =>
          match w !! a with
          | Some (HApi g) => forallb is_object (getColumnState g)
          | _ => false
          end
      | _ => false
      end
  | on_cell_value_changed | on_cell_editing_started | on_cell_editing_stopped =>
      match get "colDef" fs with Some (JObj _) => true | _ => false end
  | on_row_selected =>
      match get "node" fs with
      | Some (JHost n) => match w !! n with Some (HNode _) => true | _ => false end
      | _ => false
      end
  | on_cell_focused =>
      match get "column" fs with
      | None | Some JUndefined | Some JNull | Some (JObj _) => true
      | _ => false
      end
  | _ => true
  end.

(** Two values with the same field values: objects that answer every
    property read alike, or equal values. *)
Definition same_fields (v1 v2 : value) : Prop :=
  match v1, v2 with
  | JObj f1, JObj f2 => ∀ k, get k f1 = get k f2
  | _, _ => v1 = v2
  end.

(** *** Where a live handle can travel *)

(** [mentions a v]: the handle [a] occurs somewhere inside [v]. *)
Fixpoint mentions (a : handle) (v : value) : bool :=
  match v with
  | JHost b => bool_decide (a = b)
  | JArr items => existsb (mentions a) items
  | JObj fs => existsb (fun kv => mentions a (snd kv)) fs
  | _ => false
  end.

(** [v.p], when [v] is an object that has the property. *)
Definition sub_field (p : string) (v : value) : option value :=
  match v with
  | JObj fs => get p fs
  | _ => None
  end.

Definition whole_if (b : bool) (v : value) : option value :=
  if b then Some v else None.

(** The part of the value [v] of the native event's top-level field [k]
    that a handler's expressions copy into the payload: the whole value,
    one property of it ([colDef.field], [column?.colId]), or nothing. *)
Definition forwarded (h : handler) (k : string) (v : value) : option value :=
  match h with
  | on_grid_ready | on_grid_pre_destroyed | on_first_data_rendered
  | on_row_data_updated | on_new_columns_loaded
  | on_displayed_columns_changed | on_model_updated
  | on_viewport_changed => Some v
  | on_cell_clicked | on_cell_double_clicked =>
      whole_if (negb (bool_decide (k ∈ cell_exclude_keys))) v
  | on_row_clicked | on_row_double_clicked =>
      whole_if (negb (bool_decide (k ∈ row_exclude_keys))) v
  | on_column_resized | on_column_moved | on_column_visible
  | on_column_pinned =>
      whole_if (negb (bool_decide (k ∈ column_exclude_keys))) v
  | on_selection_changed => whole_if (bool_decide (k ∈ ["source"; "type"])) v
  | on_cell_value_changed =>
      if String.eqb k "colDef" then sub_field "field" v
      else whole_if (bool_decide (k ∈ ["rowIndex"; "newValue"])) v
  | on_cell_editing_started | on_cell_editing_stopped =>
      if String.eqb k "colDef" then sub_field "field" v
      else whole_if (bool_decide (k ∈ ["rowIndex"; "value"])) v
  | on_row_editing_started
  | on_row_editing_stopped => whole_if (bool_decide (k ∈ ["rowIndex"; "data"])) v
  | on_row_selected => whole_if (bool_decide (k ∈ ["data"; "rowIndex"])) v
  | on_cell_focused =>
      if String.eqb k "column" then sub_field "colId" v
      else whole_if (bool_decide (k ∈ ["rowIndex"])) v
  | on_body_scroll
  | on_body_scroll_end =>
      whole_if (bool_decide (k ∈ ["direction"; "left"; "top"])) v
  | on_grid_size_changed =>
      whole_if (bool_decide (k ∈ ["clientWidth"; "clientHeight"])) v
  | on_sort_changed | on_filter_changed | on_pagination_changed => None
  end.

(** The handlers whose expressions query the live grid. *)
Definition queries_grid (h : handler) : bool :=
  match h with
  | on_selection_changed | on_sort_changed | on_filter_changed
  | on_pagination_changed | on_row_selected => true
  | _ => false
  end.

(** The handle [a] is not in any answer of the grid API objects of [w]. *)
Definition api_answers_clean (a : handle) (w : world) : Prop :=
  ∀ b g, w !! b = Some (HApi g) →
    existsb (mentions a) (getSelectedRows g) = false ∧
    existsb (mentions a) (getColumnState g) = false ∧
    mentions a (getFilterModel g) = false ∧
    mentions a (paginationGetCurrentPage g) = false ∧
    mentions a (paginationGetTotalPages g) = false ∧
    mentions a (paginationGetPageSize g) = false.

(** *** Sort entries *)

(** A column of the column state takes part in the sort: [c.sort] is truthy. *)
Definition is_sorted_column (c : value) : bool :=
  match c with
  | JObj fs => truthy (prop "sort" fs)
  | _ => false
  end.

(** [{colId: c.colId, sort: c.sort, sortIndex: c.sortIndex}] *)
Definition sort_entry (c : value) : value :=
  match c with
  | JObj fs =>
      JObj [ ("colId", prop "colId" fs); ("sort", prop "sort" fs);
             ("sortIndex", prop "sortIndex" fs) ]
  | _ => JUndefined
  end.

Definition sort_index (entry : value) : option Z :=
  match entry with
  | JObj fs => match get "sortIndex" fs with Some (JNum n) => Some n | _ => None end
  | _ => None
  end.

(** The entries carry numeric sort indexes, in ascending order. *)
Fixpoint ascending_from (lo : Z) (entries : list value) : bool :=
  match entries with
  | [] => true
  | v :: rest =>
      match sort_index v with
      | Some n => (lo <=? n) && ascending_from n rest
      | None => false
      end
  end.

Definition ordered_by_sortIndex (entries : list value) : bool :=
  match entries with
  | [] => true
  | v :: rest =>
      match sort_index v with
      | Some n => ascending_from n rest
      | None => false
      end
  end.

(** *** Properties the specification asks of the payloads *)

(** The sort-changed payload is one array of entries whose sort indexes
    ascend. *)
Definition emits_in_sort_order (x : string) (w : world) (fs : fields) : Prop :=
  ∃ entries,
    payload on_sort_changed x w (JObj fs) = Val [JArr entries] ∧
    ordered_by_sortIndex entries = true.

(** The grid API handle that the native event carries in its [api] field
    is nowhere in the payload of handler [h]. *)
Definition keeps_back_api (h : handler) (x : string) (w : world) (fs : fields) : Prop :=
  ∀ a p,
    get "api" fs = Some (JHost a) →
    payload h x w (JObj fs) = Val p →
    existsb (mentions a) p = false.

(** The handle [a] is in no part of the event that handler [h] forwards. *)
Definition held_back (h : handler) (a : handle) (fs : fields) : Prop :=
  ∀ k v part, (k, v) ∈ fs → forwarded h k v = Some part → mentions a part = false.

(** Two invocations of handler [h] on the same native event deliver the
    same payload, whatever the live grid is at each of them. *)
Definition same_event_same_payload (h : handler) (x : string) (fs : fields) : Prop :=
  ∀ w1 w2 p1 p2,
    payload h x w1 (JObj fs) = Val p1 →
    payload h x w2 (JObj fs) = Val p2 →
    p1 = p2.

End Adapter.

(** ** Sample events and grids *)

Module Samples.
Import Py Js Adapter.

(** The identifiers the framework gives the native event: the name of the
    spec's parameter after an underscore. *)
Definition event_name : string := "_event".
Definition e0_name : string := "_e0".

Definition column (colId : string) (sort sortIndex : value) : value :=
  JObj [("colId", JStr colId); ("hide", JBool false); ("sort", sort);
        ("sortIndex", sortIndex); ("width", JNum 200)].

(** A grid whose columns are displayed as age, name, city; the user sorted
    by name first and then added age as second sort column. *)
Definition grid_sorted_by_name_then_age : GridApi :=
  {| getSelectedRows :=
       [JObj [("id", JNum 2); ("name", JStr "Bob"); ("age", JNum 34)]];
     getColumnState :=
       [ column "age" (JStr "desc") (JNum 1);
         column "name" (JStr "asc") (JNum 0);
         column "city" JNull JNull ];
     getFilterModel := JObj [];
     paginationGetCurrentPage := JNum 2;
     paginationGetTotalPages := JNum 5;
     paginationGetPageSize := JNum 5 |}.

(** Handle 0 is the grid API, handle 1 the grid context, handle 2 a row
    node, handle 3 the DOM event. *)
Definition browser : world :=
  {[ 0%nat := HApi grid_sorted_by_name_then_age;
     1%nat := HOpaque;
     2%nat := HNode true;
     3%nat := HOpaque ]}.

(** The same grid a moment later: the selection has been cleared. *)
Definition grid_after_deselect : GridApi :=
  {| getSelectedRows := [];
     getColumnState := getColumnState grid_sorted_by_name_then_age;
     getFilterModel := JObj [];
     paginationGetCurrentPage := JNum 2;
     paginationGetTotalPages := JNum 5;
     paginationGetPageSize := JNum 5 |}.

Definition browser_after_deselect : world :=
  {[ 0%nat := HApi grid_after_deselect;
     1%nat := HOpaque;
     2%nat := HNode false;
     3%nat := HOpaque ]}.

Definition sort_changed_event : fields :=
  [ ("type", JStr "sortChanged"); ("source", JStr "uiColumnSorted");
    ("api", JHost 0%nat); ("context", JHost 1%nat) ].

Definition grid_ready_event : fields :=
  [ ("type", JStr "gridReady"); ("api", JHost 0%nat); ("context", JHost 1%nat) ].

(** A selection event that also carries a stale snapshot of its own. *)
Definition selection_changed_event : fields :=
  [ ("type", JStr "selectionChanged"); ("source", JStr "checkboxSelected");
    ("selectedRows", JArr []);
    ("api", JHost 0%nat); ("context", JHost 1%nat) ].

Definition cell_value_changed_event : fields :=
  [ ("type", JStr "cellValueChanged");
    ("rowIndex", JNum 2);
    ("colDef", JObj [("field", JStr "age"); ("editable", JBool true)]);
    ("oldValue", JNum 30); ("newValue", JNum 31);
    ("data", JObj [("name", JStr "Eva"); ("age", JNum 31)]);
    ("node", JHost 2%nat); ("api", JHost 0%nat); ("context", JHost 1%nat) ].

Definition cell_clicked_event : fields :=
  [ ("type", JStr "cellClicked");
    ("rowIndex", JNum 2); ("value", JNum 31);
    ("data", JObj [("name", JStr "Eva"); ("age", JNum 31)]);
    ("column", JObj [("colId", JStr "age"); ("gridApi", JHost 0%nat)]);
    ("columnApi", JHost 0%nat);
    ("colDef", JObj [("field", JStr "age")]);
    ("node", JHost 2%nat); ("event", JHost 3%nat); ("eventPath", JArr [JHost 3%nat]);
    ("api", JHost 0%nat); ("context", JHost 1%nat) ].

Definition row_selected_event : fields :=
  [ ("type", JStr "rowSelected"); ("rowIndex", JNum 1);
    ("data", JObj [("name", JStr "Bob"); ("age", JNum 34)]);
    ("node", JHost 2%nat); ("source", JStr "checkboxSelected");
    ("api", JHost 0%nat); ("context", JHost 1%nat) ].

(** Stand-ins for the framework's helpers, for running an API call. *)
Definition sample_to_camel_case (s : string) : string :=
  if String.eqb s "select_all" then "selectAll" else s.

Definition sample_Var_create (v : pyval) : Var :=
  match v with
  | PVar v => v
  | PStr s => rx_Var ("'" +:+ s +:+ "'")
  | PBool true => rx_Var "true"
  | PBool false => rx_Var "false"
  | _ => rx_Var "null"
  end.

Definition sample_object_attrs : list string :=
  ["__class__"; "__dict__"; "__doc__"; "__repr__"; "__str__"].

Definition sample_props : gmap string pyval :=
  {[ "theme" := PStr "balham";
     "auto_size_strategy" := PDict [("type", PStr "fitGridWidth")];
     "on_grid_ready" := PVar (rx_Var "callerHandler");
     "pagination" := PBool true ]}.

End Samples.

(** ** The rest of the component: wrapper, imports, and what handlers need *)

Module Wrapper.
Import Py.

(** [AgGrid._exclude_props]. *)
Definition _exclude_props : list string := ["id"].

(** [AgGrid.add_imports]: library name to imported names. *)
Definition add_imports : list (string * list string) :=
  [ ("ag-grid-community", ["ModuleRegistry"; "AllCommunityModule"]);
    ("", [ "ag-grid-community/styles/ag-grid.css";
           "ag-grid-community/styles/ag-theme-quartz.css";
           "ag-grid-community/styles/ag-theme-balham.css";
           "ag-grid-community/styles/ag-theme-material.css";
           "ag-grid-community/styles/ag-theme-alpine.css" ]) ].

(** [AgGrid.add_custom_code]. *)
Definition add_custom_code : list string :=
  ["ModuleRegistry.registerModules([AllCommunityModule]);"].

(** The stylesheets imported without a name, [add_imports()[""]]. *)
Definition stylesheets : list string :=
  default [] (snd <$> List.find (fun kv => String.eqb (fst kv) "") add_imports).

(** The body of [AgGrid.create] for an [id] of any Python value: the
    annotation [id: str] is not enforced when the call is made. *)
Definition AgGrid_create_value (children : list pyval) (id : pyval)
    (props : gmap string pyval) : Component :=
  let props := <["id" := id]> props in
  let theme := default (PStr "quartz") (props !! "theme") in
  let props := delete "theme" props in
  let props := <["class_name" := rx_match theme theme_cases (PStr "")]> props in
  let props :=
    match props !! "auto_size_strategy" with
    | Some _ => <["on_grid_ready" := PVar size_columns_to_fit]> props
    | None => props
    end in
  mkComponent children props.

Inductive py_error := PyTypeError.

(** [AgGrid.create] called with the children and a dict of keyword
    arguments, as [WrappedAgGrid.create] calls it: [id] is a required
    keyword-only parameter, taken out of the keywords; without it the call
    raises. *)
Definition AgGrid_create_kw (children : list pyval)
    (kwargs : gmap string pyval) : py_error + Component :=
  match kwargs !! "id" with
  | None => inl PyTypeError
  | Some id => inr (AgGrid_create_value children id (delete "id" kwargs))
  end.

(** [Div.create(child, width=width, height=height)]. *)
Record Div := mkDiv {
  div_child : Component;
  div_width : pyval;
  div_height : pyval
}.

(** Classmethod [WrappedAgGrid.create]. *)
Definition WrappedAgGrid_create (children : list pyval)
    (props : gmap string pyval) : py_error + Div :=
  let width := default (PStr "100%") (props !! "width") in
  let props := delete "width" props in
  let height := default (PStr "400px") (props !! "height") in
  let props := delete "height" props in
  match AgGrid_create_kw children props with
  | inl err => inl err
  | inr grid => inr (mkDiv grid width height)
  end.

End Wrapper.

(** ** The demo application's state *)

Module DemoApp.
Import Py.

(** A row is a Python dict, an object: a list of rows holds references, and
    two entries, of one list or of two, may be the same dict.  The heap
    gives what each dict currently maps. *)
Definition dict_ref := nat.

Abbreviation row := (gmap string pyval).

(** [class State(rx.State)], with the dicts its two lists refer to. *)
Record State := mkState {
  heap : gmap dict_ref row;
  row_data : list dict_ref;
  selected_rows : list dict_ref
}.

(** [State.on_selection_changed]. *)
Definition on_selection_changed (self : State) (rows : list dict_ref)
    (source type : string) : State :=
  mkState (heap self) (row_data self) rows.

(** [State.on_cell_value_changed]: the guard
    [0 <= row_index < len(self.row_data)], then
    [self.row_data[row_index][field] = new_value], which writes into the
    dict that the list entry refers to.  (Within the guard the index always
    finds an entry.) *)
Definition on_cell_value_changed (self : State) (row_index : Z)
    (field : string) (new_value : pyval) : State :=
  if (0 <=? row_index) && (row_index <? Z.of_nat (length (row_data self))) then
    match row_data self !! Z.to_nat row_index with
    | Some r =>
        mkState (alter (fun d : row => <[field := new_value]> d) r (heap self))
                (row_data self) (selected_rows self)
    | None => self
    end
  else self.

(** Two rows, the second of which is also the selected row. *)
Definition sample_state : State :=
  mkState {[ 0%nat := ∅; 1%nat := {["age" := PInt 30]} ]}
          [0%nat; 1%nat] [1%nat].

(** The dict that entry [j] of a list of rows refers to, as it is now. *)
Definition row_at (self : State) (rows : list dict_ref) (j : nat) : option row :=
  match rows !! j with
  | Some r => heap self !! r
  | None => None
  end.

End DemoApp.

(** ** What each handler reads *)

Module Reads.
Import Py Js Adapter.

(** The field of the native event on which a handler's expressions call a
    method or read a property: the expression throws unless the field holds
    an object. *)
Definition required_field (h : handler) : option string :=
  match h with
  | on_selection_changed | on_sort_changed | on_filter_changed
  | on_pagination_changed => Some "api"
  | on_cell_value_changed | on_cell_editing_started
  | on_cell_editing_stopped => Some "colDef"
  | on_row_selected => Some "node"
  | _ => None
  end.

(** The handlers whose expressions only read fields of the event, and the
    fields in payload order. *)
Definition plain_reads (h : handler) : option (list string) :=
  match h with
  | on_row_editing_started | on_row_editing_stopped => Some ["rowIndex"; "data"]
  | on_body_scroll | on_body_scroll_end => Some ["direction"; "left"; "top"]
  | on_grid_size_changed => Some ["clientWidth"; "clientHeight"]
  | _ => None
  end.

(** An entry of the sort-changed payload: exactly the three keys, in the
    order of the object literal, with a truthy [sort]. *)
Definition is_sort_entry (v : value) : Prop :=
  ∃ colId sort sortIndex,
    v = JObj [("colId", colId); ("sort", sort); ("sortIndex", sortIndex)] ∧
    truthy sort = true.

End Reads.

(** ** Facts about the JavaScript fragment *)

Module JsFacts.
Import Js.

Lemma string_app_assoc (a b c : string) : (a +:+ b) +:+ c = a +:+ (b +:+ c).
Proof.
  induction a as [|ch a IH]; [reflexivity |].
  change (String ch ((a +:+ b) +:+ c) = String ch (a +:+ (b +:+ c))).
  now rewrite IH.
Qed.

Lemma get_omit (k : string) (keys : list string) (fs : fields) :
  get k (omit keys fs) = if bool_decide (k ∈ keys) then None else get k fs.
Proof.
  induction fs as [|[k' v] fs IH]; simpl.
  - now destruct (bool_decide (k ∈ keys)).
  - destruct (bool_decide (k' ∈ keys)) eqn:Hk'; simpl.
    + rewrite IH. destruct (String.eqb_spec k k') as [->|Hne].
      * now rewrite Hk'.
      * reflexivity.
    + destruct (String.eqb_spec k k') as [->|Hne].
      * now rewrite Hk'.
      * exact IH.
Qed.

Lemma get_omit_excluded (k : string) (keys : list string) (fs : fields) :
  k ∈ keys → get k (omit keys fs) = None.
Proof. intros Hk. rewrite get_omit. now rewrite bool_decide_eq_true_2. Qed.

Lemma get_omit_kept (k : string) (keys : list string) (fs : fields) :
  k ∉ keys → get k (omit keys fs) = get k fs.
Proof. intros Hk. rewrite get_omit. now rewrite bool_decide_eq_false_2. Qed.

Lemma prop_ext (k : string) (fs fs' : fields) :
  get k fs = get k fs' → prop k fs = prop k fs'.
Proof. unfold prop. now intros ->. Qed.

(** Reading the event variable. *)

Lemma lookup_var_here (x : string) (b : option value) (ρ : env) :
  lookup_var x ((x, b) :: ρ) = Some b.
Proof. simpl. now rewrite String.eqb_refl. Qed.

Lemma lookup_var_skip (x y : string) (b : option value) (ρ : env) :
  x ≠ y → lookup_var x ((y, b) :: ρ) = lookup_var x ρ.
Proof. intros Hne. simpl. now destruct (String.eqb_spec x y). Qed.

Lemma lookup_var_dead_zone (x : string) (names : list string) (ρ : env) :
  x ∉ names → lookup_var x (dead_zone names ++ ρ) = lookup_var x ρ.
Proof.
  induction names as [|y names IH]; intros Hx; [reflexivity |].
  apply not_elem_of_cons in Hx as [Hne Hx]. simpl.
  destruct (String.eqb_spec x y); [contradiction | now apply IH].
Qed.

Lemma lookup_var_picked (x : string) (keys : list string) (fs : fields) (ρ : env) :
  x ∉ keys →
  lookup_var x (List.map (fun k => (k, Some (prop k fs))) keys ++ ρ) = lookup_var x ρ.
Proof.
  induction keys as [|y keys IH]; intros Hx; [reflexivity |].
  apply not_elem_of_cons in Hx as [Hne Hx]. simpl.
  destruct (String.eqb_spec x y); [contradiction | now apply IH].
Qed.

Lemma lookup_var_destructure (x : string) (keys : list string) (fs : fields) (ρ : env) :
  x ∉ declared keys →
  lookup_var x (destructure keys fs ++ ρ) = lookup_var x ρ.
Proof.
  unfold declared, destructure. intros Hx.
  apply not_elem_of_app in Hx as [Hkeys Hrest].
  rewrite <- app_assoc. rewrite lookup_var_picked by assumption.
  simpl. destruct (String.eqb_spec x "rest") as [->|]; [|reflexivity].
  exfalso. apply Hrest. now left.
Qed.

Lemma lookup_var_rest (keys : list string) (fs : fields) (ρ : env) :
  "rest" ∉ keys →
  lookup_var "rest" (destructure keys fs ++ ρ) = Some (Some (JObj (omit keys fs))).
Proof.
  unfold destructure. intros Hx.
  rewrite <- app_assoc. now rewrite lookup_var_picked by assumption.
Qed.

(** The block [let {keys, ...rest} = x; return ret], run on an object. *)
Lemma eval_let_rest (w : world) (x : string) (fs : fields)
    (keys : list string) (ret : expr) :
  NoDup (declared keys) →
  x ∉ declared keys →
  eval w [(x, Some (JObj fs))] (ELetRest keys (EVar x) ret)
  = eval w (destructure keys fs ++ [(x, Some (JObj fs))]) ret.
Proof.
  intros Hnd Hx. simpl.
  rewrite bool_decide_eq_true_2 by assumption.
  unfold read_var. rewrite lookup_var_dead_zone by assumption.
  now rewrite lookup_var_here.
Qed.

Lemma eval_strip (w : world) (x : string) (fs : fields) (keys : list string) :
  NoDup (declared keys) →
  x ∉ declared keys →
  eval w [(x, Some (JObj fs))] (ELetRest keys (EVar x) (EVar "rest"))
  = Val (JObj (omit keys fs)).
Proof.
  intros Hnd Hx. rewrite eval_let_rest by assumption.
  simpl. unfold read_var. rewrite lookup_var_rest; [reflexivity |].
  unfold declared in Hnd. apply NoDup_app in Hnd as (_ & Hdisj & _).
  intros Hin. apply (Hdisj _ Hin). now left.
Qed.

(** Plain reads of the event variable. *)
Lemma eval_event_var (w : world) (x : string) (e : value) :
  eval w [(x, Some e)] (EVar x) = Val e.
Proof. simpl. unfold read_var. now rewrite lookup_var_here. Qed.

Lemma eval_event_dot (w : world) (x p : string) (fs : fields) :
  eval w [(x, Some (JObj fs))] (EDot (EVar x) p) = Val (prop p fs).
Proof. simpl. unfold read_var. now rewrite lookup_var_here. Qed.

Lemma eval_event_call (w : world) (x p m : string) (fs : fields) :
  eval w [(x, Some (JObj fs))] (ECall0 (EDot (EVar x) p) m) = call0 w (prop p fs) m.
Proof. simpl. unfold read_var. now rewrite lookup_var_here. Qed.

Lemma prop_some (k : string) (fs : fields) (v : value) :
  get k fs = Some v → prop k fs = v.
Proof. unfold prop. now intros ->. Qed.

(** What the grid API object answers. *)
Lemma call0_api (w : world) (a : handle) (g : GridApi) :
  w !! a = Some (HApi g) →
  call0 w (JHost a) "getSelectedRows" = Val (JArr (getSelectedRows g)) ∧
  call0 w (JHost a) "getColumnState" = Val (JArr (getColumnState g)) ∧
  call0 w (JHost a) "getFilterModel" = Val (getFilterModel g) ∧
  call0 w (JHost a) "paginationGetCurrentPage" = Val (paginationGetCurrentPage g) ∧
  call0 w (JHost a) "paginationGetTotalPages" = Val (paginationGetTotalPages g) ∧
  call0 w (JHost a) "paginationGetPageSize" = Val (paginationGetPageSize g).
Proof. intros Hw. unfold call0. rewrite Hw. repeat split. Qed.

Lemma call0_node (w : world) (n : handle) (b : bool) :
  w !! n = Some (HNode b) → call0 w (JHost n) "isSelected" = Val (JBool b).
Proof. intros Hw. unfold call0. now rewrite Hw. Qed.

(** One layer of [filter] and [map] over an array. *)
Lemma eval_filter (w : world) (ρ : env) (e : expr) (c : string) (body : expr)
    (items : list value) :
  eval w ρ e = Val (JArr items) →
  eval w ρ (EFilter e c body)
  = kept ← filter_out
             (fun x => b ← eval w ((c, Some x) :: ρ) body; Val (truthy b)) items;
    Val (JArr kept).
Proof. intros He. cbn [eval]. now rewrite He. Qed.

Lemma eval_map (w : world) (ρ : env) (e : expr) (c : string) (body : expr)
    (items : list value) :
  eval w ρ e = Val (JArr items) →
  eval w ρ (EMap e c body)
  = out ← map_out (fun x => eval w ((c, Some x) :: ρ) body) items;
    Val (JArr out).
Proof. intros He. cbn [eval]. now rewrite He. Qed.

End JsFacts.

(** ** What each handler's payload is *)

Module AdapterFacts.
Import Py Js Adapter JsFacts.

(** The trees are the generated text: printing the tree of a handler gives,
    character for character, the expressions its Python spec returns. *)
Lemma args_ast_text (h : handler) (ev : expr) :
  List.map show (args_ast h ev) = List.map _js_expr (args_spec h (rx_Var (show ev))).
Proof.
  destruct h; cbn; generalize (show ev); intros s;
    rewrite ?string_app_assoc; reflexivity.
Qed.

(** For the event Var [x]: what the Python spec of [h] generates is the
    printed form of the trees that [payload] evaluates. *)
Lemma spec_text (h : handler) (x : string) :
  List.map _js_expr (args_spec h (rx_Var x)) = List.map show (args_ast h (EVar x)).
Proof. symmetry. apply (args_ast_text h (EVar x)). Qed.

Lemma map_out_cons {A B} (f : A → outcome B) (a : A) (l : list A) :
  map_out f (a :: l) = b ← f a; bs ← map_out f l; Val (b :: bs).
Proof. reflexivity. Qed.

Lemma map_out_nil {A B} (f : A → outcome B) : map_out f [] = Val [].
Proof. reflexivity. Qed.

Lemma bind_val {A B} (a : A) (k : A → outcome B) : (Val a ≫= k) = k a.
Proof. reflexivity. Qed.

Lemma nodup_pick (key : string) : key ≠ "rest" → NoDup (declared [key]).
Proof.
  intros Hne. unfold declared. simpl. apply NoDup_cons. split.
  - intros Hin. apply list_elem_of_singleton in Hin. contradiction.
  - apply NoDup_singleton.
Qed.

Lemma eval_pick_var (w : world) (x key : string) (fs : fields) :
  key ≠ "rest" → x ∉ declared [key] →
  eval w [(x, Some (JObj fs))] (pick key (EVar x) (EVar key)) = Val (prop key fs).
Proof.
  intros Hne Hx. unfold pick. rewrite eval_let_rest by auto using nodup_pick.
  simpl. unfold read_var. now rewrite lookup_var_here.
Qed.

Lemma eval_pick_dot (w : world) (x key p : string) (fs : fields) :
  key ≠ "rest" → x ∉ declared [key] →
  eval w [(x, Some (JObj fs))] (pick key (EVar x) (EDot (EVar key) p))
  = member (prop key fs) p.
Proof.
  intros Hne Hx. unfold pick. rewrite eval_let_rest by auto using nodup_pick.
  simpl. unfold read_var. now rewrite lookup_var_here.
Qed.

Lemma eval_pick_optdot (w : world) (x key p : string) (fs : fields) :
  key ≠ "rest" → x ∉ declared [key] →
  eval w [(x, Some (JObj fs))] (pick key (EVar x) (EOptDot (EVar key) p))
  = if nullish (prop key fs) then Val JUndefined else member (prop key fs) p.
Proof.
  intros Hne Hx. unfold pick. rewrite eval_let_rest by auto using nodup_pick.
  simpl. unfold read_var. now rewrite lookup_var_here.
Qed.

Lemma nodup_pattern (c : strip_category) : NoDup (declared (pattern_keys c)).
Proof. destruct c; apply (bool_decide_unpack _); vm_compute; exact I. Qed.

Ltac open_payload :=
  unfold payload; cbn [args_ast];
  unfold passthrough_ast, grid_size_changed_ast, cell_event_ast,
    cell_focused_ast, cell_value_changed_ast, cell_editing_ast,
    row_editing_ast, row_event_ast, row_selected_ast, selection_change_ast,
    column_event_ast, sort_changed_ast, filter_changed_ast,
    pagination_changed_ast, body_scroll_ast.
Ltac event_var H := unfold event_var_ok in H; cbn in H.
Ltac avoid H :=
  let Hin := fresh "Hin" in
  unfold declared; cbn; intros Hin; apply H;
  apply list_elem_of_In in Hin; apply list_elem_of_In; simpl in *; tauto.

Lemma payload_passthrough (h : handler) (x : string) (w : world) (e : value) :
  h ∈ passthrough_handlers → payload h x w e = Val [e].
Proof.
  intros Hh. unfold passthrough_handlers in Hh.
  repeat (apply elem_of_cons in Hh as [-> | Hh];
          [open_payload;
           rewrite map_out_cons, eval_event_var; reflexivity |]).
  now apply elem_of_nil in Hh.
Qed.

Lemma payload_strip (c : strip_category) (h : handler) (x : string)
    (w : world) (fs : fields) :
  h ∈ strip_handlers c → event_var_ok h x →
  payload h x w (JObj fs) = Val [JObj (omit (pattern_keys c) fs)].
Proof.
  intros Hh Hx.
  assert (args_ast h (EVar x) = [strip (pattern_keys c) (EVar x)]) as Hast.
  { destruct c; simpl in Hh;
      repeat (apply elem_of_cons in Hh as [-> | Hh]; [reflexivity |]);
      now apply elem_of_nil in Hh. }
  unfold event_var_ok in Hx. unfold payload. rewrite Hast in *.
  simpl in Hx. rewrite !app_nil_r in Hx. rewrite map_out_cons.
  unfold strip. rewrite eval_strip; [reflexivity | apply nodup_pattern | exact Hx].
Qed.

Lemma payload_selection_changed (x : string) (w : world) (fs : fields) :
  payload on_selection_changed x w (JObj fs)
  = rows ← call0 w (prop "api" fs) "getSelectedRows";
    Val [rows; prop "source" fs; prop "type" fs].
Proof.
  open_payload.
  rewrite !map_out_cons, eval_event_call, !eval_event_dot.
  now destruct (call0 _ _ _).
Qed.

Lemma payload_cell_value_changed (x : string) (w : world) (fs : fields) :
  event_var_ok on_cell_value_changed x →
  payload on_cell_value_changed x w (JObj fs)
  = field ← member (prop "colDef" fs) "field";
    Val [prop "rowIndex" fs; field; prop "newValue" fs].
Proof.
  intros Hx. event_var Hx. open_payload.
  rewrite !map_out_cons, !eval_pick_var, eval_pick_dot by (done || avoid Hx).
  now destruct (member _ _).
Qed.

Lemma payload_cell_editing (h : handler) (x : string) (w : world) (fs : fields) :
  h ∈ [on_cell_editing_started; on_cell_editing_stopped] → event_var_ok h x →
  payload h x w (JObj fs)
  = field ← member (prop "colDef" fs) "field";
    Val [prop "rowIndex" fs; field; prop "value" fs].
Proof.
  intros Hh Hx.
  repeat (apply elem_of_cons in Hh as [-> | Hh];
    [event_var Hx; open_payload;
     rewrite !map_out_cons, !eval_pick_var, eval_pick_dot by (done || avoid Hx);
     now destruct (member _ _) |]).
  now apply elem_of_nil in Hh.
Qed.

Lemma payload_row_editing (h : handler) (x : string) (w : world) (fs : fields) :
  h ∈ [on_row_editing_started; on_row_editing_stopped] → event_var_ok h x →
  payload h x w (JObj fs) = Val [prop "rowIndex" fs; prop "data" fs].
Proof.
  intros Hh Hx.
  repeat (apply elem_of_cons in Hh as [-> | Hh];
    [event_var Hx; open_payload;
     rewrite !map_out_cons, eval_pick_var, eval_event_dot by (done || avoid Hx);
     reflexivity |]).
  now apply elem_of_nil in Hh.
Qed.

Lemma payload_filter_changed (x : string) (w : world) (fs : fields) :
  payload on_filter_changed x w (JObj fs)
  = model ← call0 w (prop "api" fs) "getFilterModel"; Val [model].
Proof.
  open_payload.
  rewrite !map_out_cons, eval_event_call.
  now destruct (call0 _ _ _).
Qed.

Lemma payload_pagination_changed (x : string) (w : world) (fs : fields) :
  payload on_pagination_changed x w (JObj fs)
  = page ← call0 w (prop "api" fs) "paginationGetCurrentPage";
    total ← call0 w (prop "api" fs) "paginationGetTotalPages";
    size ← call0 w (prop "api" fs) "paginationGetPageSize";
    Val [page; total; size].
Proof.
  open_payload.
  rewrite !map_out_cons, !eval_event_call.
  destruct (call0 _ _ "paginationGetCurrentPage"); try reflexivity.
  destruct (call0 _ _ "paginationGetTotalPages"); try reflexivity.
  now destruct (call0 _ _ "paginationGetPageSize").
Qed.

Lemma payload_row_selected (x : string) (w : world) (fs : fields) :
  event_var_ok on_row_selected x →
  payload on_row_selected x w (JObj fs)
  = selected ← call0 w (prop "node" fs) "isSelected";
    Val [prop "data" fs; selected; prop "rowIndex" fs].
Proof.
  intros Hx. event_var Hx. open_payload.
  rewrite !map_out_cons, eval_event_dot, eval_event_call, eval_pick_var
    by (done || avoid Hx).
  now destruct (call0 _ _ _).
Qed.

Lemma payload_cell_focused (x : string) (w : world) (fs : fields) :
  event_var_ok on_cell_focused x →
  payload on_cell_focused x w (JObj fs)
  = col ← (if nullish (prop "column" fs) then Val JUndefined
           else member (prop "column" fs) "colId");
    Val [prop "rowIndex" fs; col].
Proof.
  intros Hx. event_var Hx. open_payload.
  rewrite !map_out_cons, eval_event_dot, eval_pick_optdot by (done || avoid Hx).
  now destruct (if nullish _ then _ else _).
Qed.

Lemma payload_body_scroll (h : handler) (x : string) (w : world) (fs : fields) :
  h ∈ [on_body_scroll; on_body_scroll_end] →
  payload h x w (JObj fs)
  = Val [prop "direction" fs; prop "left" fs; prop "top" fs].
Proof.
  intros Hh.
  repeat (apply elem_of_cons in Hh as [-> | Hh];
    [open_payload;
     rewrite !map_out_cons, !eval_event_dot; reflexivity |]).
  now apply elem_of_nil in Hh.
Qed.

Lemma payload_grid_size_changed (x : string) (w : world) (fs : fields) :
  payload on_grid_size_changed x w (JObj fs)
  = Val [prop "clientWidth" fs; prop "clientHeight" fs].
Proof.
  open_payload.
  now rewrite !map_out_cons, !eval_event_dot.
Qed.

End AdapterFacts.

(** ** The sort-changed handler *)

Module SortChanged.
Import Py Js Adapter JsFacts AdapterFacts.

Lemma filter_sorted_columns (w : world) (ρ : env) (cols : list value) :
  forallb is_object cols = true →
  filter_out (fun c => b ← eval w (("c", Some c) :: ρ) (EDot (EVar "c") "sort");
                       Val (truthy b)) cols
  = Val (List.filter is_sorted_column cols).
Proof.
  induction cols as [|c cols IH]; intros Hobj; [reflexivity |].
  simpl in Hobj. apply andb_true_iff in Hobj as [Hc Hcols].
  destruct c; try discriminate Hc.
  cbn [filter_out]. rewrite (IH Hcols). reflexivity.
Qed.

Lemma map_sort_entries (w : world) (ρ : env) (cols : list value) :
  forallb is_object cols = true →
  map_out (fun c => eval w (("c", Some c) :: ρ) sort_entry_ast) cols
  = Val (List.map sort_entry cols).
Proof.
  induction cols as [|c cols IH]; intros Hobj; [reflexivity |].
  simpl in Hobj. apply andb_true_iff in Hobj as [Hc Hcols].
  destruct c; try discriminate Hc.
  rewrite map_out_cons, (IH Hcols). reflexivity.
Qed.

Lemma filter_keeps_objects (f : value → bool) (cols : list value) :
  forallb is_object cols = true → forallb is_object (List.filter f cols) = true.
Proof.
  induction cols as [|c cols IH]; intros Hobj; [reflexivity |].
  simpl in Hobj. apply andb_true_iff in Hobj as [Hc Hcols]. simpl.
  destruct (f c); simpl; [rewrite Hc |]; auto.
Qed.

Lemma payload_sort_changed (x : string) (w : world) (fs : fields)
    (a : handle) (g : GridApi) :
  get "api" fs = Some (JHost a) →
  w !! a = Some (HApi g) →
  forallb is_object (getColumnState g) = true →
  payload on_sort_changed x w (JObj fs)
  = Val [JArr (List.map sort_entry (List.filter is_sorted_column (getColumnState g)))].
Proof.
  intros Hapi Hw Hobj. open_payload. rewrite map_out_cons.
  set (ρ := [(x, Some (JObj fs))]).
  assert (eval w ρ (ECall0 (EDot (EVar x) "api") "getColumnState")
          = Val (JArr (getColumnState g))) as Hcols.
  { subst ρ. rewrite eval_event_call, (prop_some _ _ _ Hapi).
    now apply (call0_api w a g). }
  assert (eval w ρ (EFilter (ECall0 (EDot (EVar x) "api") "getColumnState")
                            "c" (EDot (EVar "c") "sort"))
          = Val (JArr (List.filter is_sorted_column (getColumnState g)))) as Hkept.
  { rewrite (eval_filter _ _ _ _ _ _ Hcols).
    now rewrite filter_sorted_columns. }
  rewrite (eval_map _ _ _ _ _ _ Hkept).
  rewrite map_sort_entries by now apply filter_keeps_objects.
  reflexivity.
Qed.

Lemma payload_sort_changed_any (x : string) (w : world) (fs : fields) :
  payload on_sort_changed x w (JObj fs)
  = cols ← call0 w (prop "api" fs) "getColumnState";
    match cols with
    | JArr items =>
        kept ← filter_out
                 (fun c => b ← eval w [("c", Some c); (x, Some (JObj fs))]
                                  (EDot (EVar "c") "sort");
                           Val (truthy b)) items;
        out ← map_out
                (fun c => eval w [("c", Some c); (x, Some (JObj fs))] sort_entry_ast)
                kept;
        Val [JArr out]
    | JUndefined | JNull => Throw TypeError
    | _ => Beyond
    end.
Proof.
  open_payload. rewrite map_out_cons.
  change (eval w [(x, Some (JObj fs))]
            (EMap (EFilter (ECall0 (EDot (EVar x) "api") "getColumnState") "c"
                     (EDot (EVar "c") "sort")) "c" sort_entry_ast))
    with (v ← (v0 ← eval w [(x, Some (JObj fs))] (ECall0 (EDot (EVar x) "api") "getColumnState");
               match v0 with
               | JArr items =>
                  kept ← filter_out
                    (fun c => b ← eval w [("c", Some c); (x, Some (JObj fs))]
                                  (EDot (EVar "c") "sort");
                           Val (truthy b)) items;
                  Val (JArr kept)
               | JUndefined | JNull => Throw TypeError
               | _ => Beyond
               end);
          match v with
          | JArr items =>
              out ← map_out (fun c => eval w [("c", Some c); (x, Some (JObj fs))] sort_entry_ast) items;
              Val (JArr out)
          | JUndefined | JNull => Throw TypeError
          | _ => Beyond
          end).
  rewrite eval_event_call.
  destruct (call0 w (prop "api" fs) "getColumnState") as [[]| |]; try reflexivity.
  cbn [mbind outcome_bind bind].
  destruct (filter_out _ items) as [kept| |]; try reflexivity.
  cbn [mbind outcome_bind bind].
  destruct (map_out _ kept) as [out| |]; reflexivity.
Qed.

Lemma sort_index_sort_entry (c : value) :
  is_object c = true → sort_index (sort_entry c) = sort_index c.
Proof.
  destruct c as [| | | | | |fs|]; try discriminate. intros _.
  unfold sort_entry, sort_index, prop. simpl.
  now destruct (get "sortIndex" fs) as [[]|].
Qed.

Lemma ascending_from_entries (lo : Z) (cols : list value) :
  forallb is_object cols = true →
  ascending_from lo (List.map sort_entry cols) = ascending_from lo cols.
Proof.
  revert lo. induction cols as [|c cols IH]; intros lo Hobj; [reflexivity |].
  simpl in Hobj. apply andb_true_iff in Hobj as [Hc Hcols].
  cbn [List.map ascending_from]. rewrite (sort_index_sort_entry c Hc).
  destruct (sort_index c); [|reflexivity]. now rewrite IH.
Qed.

Lemma ordered_entries (cols : list value) :
  forallb is_object cols = true →
  ordered_by_sortIndex (List.map sort_entry cols) = ordered_by_sortIndex cols.
Proof.
  destruct cols as [|c cols]; intros Hobj; [reflexivity |].
  simpl in Hobj. apply andb_true_iff in Hobj as [Hc Hcols].
  cbn [List.map ordered_by_sortIndex]. rewrite (sort_index_sort_entry c Hc).
  destruct (sort_index c); [|reflexivity]. now apply ascending_from_entries.
Qed.

(** C1 (as amended).  On a native event that carries the grid API, whose
    column state is a list of column objects, the payload of the
    expression that [_on_sort_changed_spec] generates is a
    single array: the entry [{colId, sort, sortIndex}] of every column whose
    [sort] is set, one per such column and none for the others, in the order
    in which [getColumnState()] lists the columns.  Nothing re-orders them:
    the entries ascend by [sortIndex] exactly when the sorted columns of the
    column state already do. *)
Theorem sort_changed_in_column_state_order (x : string) (w : world)
    (fs : fields) (a : handle) (g : GridApi) :
  get "api" fs = Some (JHost a) →
  w !! a = Some (HApi g) →
  forallb is_object (getColumnState g) = true →
  let sorted := List.filter is_sorted_column (getColumnState g) in
  List.map _js_expr (args_spec on_sort_changed (rx_Var x))
  = List.map show (args_ast on_sort_changed (EVar x)) ∧
  payload on_sort_changed x w (JObj fs) = Val [JArr (List.map sort_entry sorted)] ∧
  ordered_by_sortIndex (List.map sort_entry sorted) = ordered_by_sortIndex sorted.
Proof.
  intros Hapi Hw Hobj sorted. split; [apply spec_text |]. split.
  - now apply (payload_sort_changed x w fs a g).
  - apply ordered_entries. now apply filter_keeps_objects.
Qed.

Lemma sort_changed_in_column_state_order_witness :
  get "api" Samples.sort_changed_event = Some (JHost 0%nat) ∧
  Samples.browser !! 0%nat = Some (HApi Samples.grid_sorted_by_name_then_age) ∧
  payload on_sort_changed Samples.event_name Samples.browser
    (JObj Samples.sort_changed_event)
  = Val [JArr [ JObj [("colId", JStr "age"); ("sort", JStr "desc"); ("sortIndex", JNum 1)];
                JObj [("colId", JStr "name"); ("sort", JStr "asc"); ("sortIndex", JNum 0)] ]].
Proof.
  split; [reflexivity |]. split; [vm_compute; reflexivity |].
  refine (proj1 (proj2 (sort_changed_in_column_state_order Samples.event_name
                          Samples.browser Samples.sort_changed_event 0%nat
                          Samples.grid_sorted_by_name_then_age _ _ _)));
    vm_compute; reflexivity.
Defined.

(** C1 as stated fails: with the columns displayed as age, name, city and
    the sort set on name first (sortIndex 0) and age second (sortIndex 1),
    the payload lists age before name. *)
Lemma sort_changed_not_by_sort_index :
  ¬ emits_in_sort_order Samples.event_name Samples.browser Samples.sort_changed_event.
Proof.
  intros (entries & Hpayload & Hordered).
  vm_compute in Hpayload. injection Hpayload as <-.
  vm_compute in Hordered. discriminate Hordered.
Qed.

End SortChanged.

(** ** Payloads of the extracting, stripping and pass-through handlers *)

Module Payloads.
Import Py Js Adapter JsFacts AdapterFacts.

(** C3.  The three expressions that [_on_selection_change_spec] generates
    evaluate to the triple: what the grid API's
    [getSelectedRows()] answers at the time of the call, the event's
    [source], the event's [type].  The first element comes from the live
    grid alone: events that agree on [api], [source] and [type] give the
    same payload, whatever else they carry (a selection snapshot of their
    own included). *)
Theorem selection_changed_queries_live_rows (x : string) (w : world)
    (fs : fields) (a : handle) (g : GridApi) :
  get "api" fs = Some (JHost a) →
  w !! a = Some (HApi g) →
  List.map _js_expr (args_spec on_selection_changed (rx_Var x))
  = List.map show (args_ast on_selection_changed (EVar x)) ∧
  payload on_selection_changed x w (JObj fs)
  = Val [JArr (getSelectedRows g); prop "source" fs; prop "type" fs] ∧
  ∀ fs' : fields,
    get "api" fs' = get "api" fs →
    get "source" fs' = get "source" fs →
    get "type" fs' = get "type" fs →
    payload on_selection_changed x w (JObj fs')
    = payload on_selection_changed x w (JObj fs).
Proof.
  intros Hapi Hw. split; [apply spec_text |]. split.
  - rewrite payload_selection_changed, (prop_some _ _ _ Hapi).
    destruct (call0_api w a g Hw) as (-> & _). reflexivity.
  - intros fs' Ha Hs Ht. rewrite !payload_selection_changed.
    now rewrite (prop_ext _ _ _ Ha), (prop_ext _ _ _ Hs), (prop_ext _ _ _ Ht).
Qed.

Lemma selection_changed_queries_live_rows_witness :
  get "api" Samples.selection_changed_event = Some (JHost 0%nat) ∧
  Samples.browser !! 0%nat = Some (HApi Samples.grid_sorted_by_name_then_age) ∧
  get "selectedRows" Samples.selection_changed_event = Some (JArr []) ∧
  payload on_selection_changed Samples.event_name Samples.browser
    (JObj Samples.selection_changed_event)
  = Val [ JArr [JObj [("id", JNum 2); ("name", JStr "Bob"); ("age", JNum 34)]];
          JStr "checkboxSelected"; JStr "selectionChanged" ].
Proof.
  split; [reflexivity |]. split; [vm_compute; reflexivity |].
  split; [reflexivity |].
  refine (proj1 (proj2 (selection_changed_queries_live_rows Samples.event_name
                          Samples.browser Samples.selection_changed_event 0%nat
                          Samples.grid_sorted_by_name_then_age _ _)));
    vm_compute; reflexivity.
Defined.

(** C4.  On a native event whose [colDef] is an object, the three
    expressions that [_on_cell_value_changed_spec] generates evaluate to
    exactly the three values
    [(event.rowIndex, event.colDef.field, event.newValue)]. *)
Theorem cell_value_changed_triple (x : string) (w : world)
    (fs cd : fields) :
  event_var_ok on_cell_value_changed x →
  get "colDef" fs = Some (JObj cd) →
  List.map _js_expr (args_spec on_cell_value_changed (rx_Var x))
  = List.map show (args_ast on_cell_value_changed (EVar x)) ∧
  payload on_cell_value_changed x w (JObj fs)
  = Val [prop "rowIndex" fs; prop "field" cd; prop "newValue" fs].
Proof.
  intros Hx Hcd. split; [apply spec_text |].
  rewrite payload_cell_value_changed by assumption.
  now rewrite (prop_some _ _ _ Hcd).
Qed.

(** For [rowIndex=2], [colDef.field="age"], [newValue=31] the payload is
    [(2, "age", 31)]. *)
Lemma cell_value_changed_triple_witness :
  event_var_ok on_cell_value_changed Samples.event_name ∧
  payload on_cell_value_changed Samples.event_name Samples.browser
    (JObj Samples.cell_value_changed_event)
  = Val [JNum 2; JStr "age"; JNum 31].
Proof.
  assert (event_var_ok on_cell_value_changed Samples.event_name) as Hx.
  { apply (bool_decide_unpack _). vm_compute. exact I. }
  split; [exact Hx |].
  refine (proj2 (cell_value_changed_triple Samples.event_name Samples.browser
                   Samples.cell_value_changed_event
                   [("field", JStr "age"); ("editable", JBool true)] Hx _)).
  reflexivity.
Defined.

(** C5.  For the cell-interaction, row-interaction and column-structural
    handlers the block that the Python spec generates (through
    [exclude_non_serializable_keys] and [arrow_callback]) evaluates to a
    single mapping; none of the category's
    excluded keys is a key of it, whatever the native event contains, and
    every other top-level field of the event is in it with the value the
    event has. *)
Theorem stripping_handlers_exclude_keys (c : strip_category) (h : handler)
    (x : string) (w : world) (fs : fields) :
  h ∈ strip_handlers c →
  event_var_ok h x →
  List.map _js_expr (args_spec h (rx_Var x))
  = List.map show (args_ast h (EVar x)) ∧
  ∃ rest : fields,
    payload h x w (JObj fs) = Val [JObj rest] ∧
    (∀ k, k ∈ excluded_keys c → get k rest = None) ∧
    (∀ k, k ∉ excluded_keys c → get k rest = get k fs).
Proof.
  intros Hh Hx. split; [apply spec_text |]. exists (omit (pattern_keys c) fs).
  assert (excluded_keys c = pattern_keys c) as -> by now destruct c.
  split; [now apply payload_strip |]. split; intros k Hk.
  - now apply get_omit_excluded.
  - now apply get_omit_kept.
Qed.

Lemma stripping_handlers_exclude_keys_witness :
  on_cell_clicked ∈ strip_handlers CellInteraction ∧
  event_var_ok on_cell_clicked Samples.event_name ∧
  ∃ rest : fields,
    payload on_cell_clicked Samples.event_name Samples.browser
      (JObj Samples.cell_clicked_event) = Val [JObj rest] ∧
    (∀ k, k ∈ excluded_keys CellInteraction → get k rest = None) ∧
    (∀ k, k ∉ excluded_keys CellInteraction →
          get k rest = get k Samples.cell_clicked_event).
Proof.
  assert (on_cell_clicked ∈ strip_handlers CellInteraction) as Hh.
  { simpl. apply elem_of_cons. now left. }
  assert (event_var_ok on_cell_clicked Samples.event_name) as Hx.
  { apply (bool_decide_unpack _). vm_compute. exact I. }
  split; [exact Hh |]. split; [exact Hx |].
  exact (proj2 (stripping_handlers_exclude_keys CellInteraction on_cell_clicked
                  Samples.event_name Samples.browser Samples.cell_clicked_event
                  Hh Hx)).
Defined.

(** C6.  Every pass-through handler is declared with the identity spec, and
    its payload is the native event itself, whatever the event is. *)
Theorem passthrough_is_identity (h : handler) (x : string) (w : world)
    (e : value) :
  h ∈ passthrough_handlers →
  (∀ e0 : Var, args_spec h e0 = [e0]) ∧ payload h x w e = Val [e].
Proof.
  intros Hh. split; [|now apply payload_passthrough].
  unfold passthrough_handlers in Hh.
  repeat (apply elem_of_cons in Hh as [-> | Hh]; [reflexivity |]).
  now apply elem_of_nil in Hh.
Qed.

Lemma passthrough_is_identity_witness :
  on_grid_ready ∈ passthrough_handlers ∧
  payload on_grid_ready Samples.e0_name Samples.browser
    (JObj Samples.grid_ready_event)
  = Val [JObj Samples.grid_ready_event].
Proof.
  assert (on_grid_ready ∈ passthrough_handlers) as Hh.
  { apply elem_of_cons. now left. }
  split; [exact Hh |].
  exact (proj2 (passthrough_is_identity on_grid_ready Samples.e0_name
                  Samples.browser (JObj Samples.grid_ready_event) Hh)).
Defined.

End Payloads.

(** ** Which parts of the native event reach the payload *)

Module Flow.
Import Py Js Adapter JsFacts AdapterFacts.

Lemma get_elem_of (k : string) (fs : fields) (v : value) :
  get k fs = Some v → (k, v) ∈ fs.
Proof.
  induction fs as [|[k' v'] fs IH]; simpl; [discriminate |].
  destruct (String.eqb_spec k k') as [->|Hne].
  - intros [= ->]. apply elem_of_cons. now left.
  - intros Hget. apply elem_of_cons. right. now apply IH.
Qed.

Lemma existsb_false_elem {A} (f : A → bool) (l : list A) :
  existsb f l = false ↔ ∀ x, x ∈ l → f x = false.
Proof.
  induction l as [|y l IH]; simpl.
  - split; [intros _ x Hx; now apply elem_of_nil in Hx | reflexivity].
  - rewrite orb_false_iff, IH. split.
    + intros [Hy Hl] x Hx. apply elem_of_cons in Hx as [-> | Hx]; auto.
    + intros Hall. split; [apply Hall; apply elem_of_cons; now left |].
      intros x Hx. apply Hall. apply elem_of_cons. now right.
Qed.

Lemma mentions_object (a : handle) (fs : fields) :
  mentions a (JObj fs) = false ↔ ∀ k v, (k, v) ∈ fs → mentions a v = false.
Proof.
  cbn [mentions]. rewrite existsb_false_elem. split.
  - intros Hall k v Hin. exact (Hall (k, v) Hin).
  - intros Hall [k v] Hin. exact (Hall k v Hin).
Qed.

Lemma mentions_prop (a : handle) (k : string) (fs : fields) :
  (∀ v, (k, v) ∈ fs → mentions a v = false) → mentions a (prop k fs) = false.
Proof.
  intros Hall. unfold prop. destruct (get k fs) as [v|] eqn:Hget; [|reflexivity].
  apply Hall. now apply get_elem_of.
Qed.

Lemma mentions_forwarded (h : handler) (a : handle) (k : string) (fs : fields) :
  held_back h a fs → (∀ v, forwarded h k v = Some v) →
  mentions a (prop k fs) = false.
Proof.
  intros Hheld Hfw. apply mentions_prop. intros v Hin.
  exact (Hheld k v v Hin (Hfw v)).
Qed.

Lemma mentions_forwarded_sub (h : handler) (a : handle) (k p : string)
    (fs : fields) (r : value) :
  held_back h a fs → (∀ v, forwarded h k v = sub_field p v) →
  member (prop k fs) p = Val r →
  mentions a r = false.
Proof.
  intros Hheld Hfw. unfold prop.
  destruct (get k fs) as [v|] eqn:Hget; [|discriminate].
  destruct v as [| | | | | |cd|]; try discriminate.
  intros Hm. change (Val (prop p cd) = Val r) in Hm. injection Hm as <-.
  destruct (get p cd) as [r'|] eqn:Hp.
  - rewrite (prop_some _ _ _ Hp).
    apply (Hheld k (JObj cd) r'); [now apply get_elem_of |].
    now rewrite Hfw.
  - unfold prop. now rewrite Hp.
Qed.

Lemma mentions_member (a : handle) (v r : value) (p : string) :
  mentions a v = false → member v p = Val r → mentions a r = false.
Proof.
  destruct v as [| | | | | |fs|]; try discriminate. intros Hv [= <-].
  apply mentions_prop. intros v Hin.
  now apply (proj1 (mentions_object a fs) Hv p v).
Qed.

Lemma mentions_call0 (a : handle) (w : world) (v r : value) (m : string) :
  api_answers_clean a w → call0 w v m = Val r → mentions a r = false.
Proof.
  intros Hclean. unfold call0. destruct v as [| | | | | | |h]; try discriminate.
  destruct (w !! h) as [[g|b|]|] eqn:Hw; try discriminate.
  - destruct (Hclean h g Hw) as (H1 & H2 & H3 & H4 & H5 & H6).
    repeat (destruct (String.eqb m _); [now intros [= <-] |]). discriminate.
  - destruct (String.eqb m _); [now intros [= <-] | discriminate].
Qed.

Lemma mentions_omit (a : handle) (keys : list string) (fs : fields) :
  (∀ k v, (k, v) ∈ fs → k ∉ keys → mentions a v = false) →
  mentions a (JObj (omit keys fs)) = false.
Proof.
  intros Hall. apply mentions_object. intros k v Hin.
  unfold omit in Hin. apply list_elem_of_In, filter_In in Hin as [Hin Hk].
  apply list_elem_of_In in Hin. apply (Hall k v Hin).
  simpl in Hk. apply negb_true_iff in Hk. now apply bool_decide_eq_false_1 in Hk.
Qed.

Lemma filter_out_clean {A} (P : A → bool) (f : A → outcome bool)
    (items kept : list A) :
  existsb P items = false → filter_out f items = Val kept →
  existsb P kept = false.
Proof.
  revert kept. induction items as [|c items IH]; intros kept Hclean; simpl.
  - now intros [= <-].
  - simpl in Hclean. apply orb_false_iff in Hclean as [Hc Hitems].
    destruct (f c) as [b| |]; try discriminate. cbn [mbind outcome_bind bind].
    destruct (filter_out f items) as [r| |]; try discriminate.
    cbn [mbind outcome_bind bind]. intros [= <-].
    specialize (IH r Hitems eq_refl). destruct b; simpl; [rewrite Hc |]; auto.
Qed.

Lemma map_out_clean {A B} (P : A → bool) (Q : B → bool) (f : A → outcome B)
    (items : list A) (out : list B) :
  (∀ c r, P c = false → f c = Val r → Q r = false) →
  existsb P items = false → map_out f items = Val out →
  existsb Q out = false.
Proof.
  intros Hf. revert out. induction items as [|c items IH]; intros out Hclean; simpl.
  - now intros [= <-].
  - simpl in Hclean. apply orb_false_iff in Hclean as [Hc Hitems].
    destruct (f c) as [r| |] eqn:Hfc; try discriminate. cbn [mbind outcome_bind bind].
    destruct (map_out f items) as [rs| |]; try discriminate.
    cbn [mbind outcome_bind bind]. intros [= <-]. simpl.
    now rewrite (Hf c r Hc Hfc), (IH rs Hitems eq_refl).
Qed.

Lemma sort_entry_clean (a : handle) (w : world) (ρ : env) (c r : value) :
  mentions a c = false →
  eval w (("c", Some c) :: ρ) sort_entry_ast = Val r →
  mentions a r = false.
Proof.
  intros Hc. unfold sort_entry_ast. cbn [eval]. unfold read_var.
  rewrite lookup_var_here. cbn [mbind outcome_bind bind].
  rewrite bool_decide_eq_true_2
    by (apply (bool_decide_unpack _); vm_compute; exact I).
  destruct (member c "colId") as [r1| |] eqn:H1; try discriminate.
  cbn [mbind outcome_bind bind].
  destruct (member c "sort") as [r2| |] eqn:H2; try discriminate.
  cbn [mbind outcome_bind bind].
  destruct (member c "sortIndex") as [r3| |] eqn:H3; try discriminate.
  cbn [mbind outcome_bind bind]. intros [= <-]. cbn [mentions existsb snd].
  now rewrite (mentions_member a c r1 _ Hc H1), (mentions_member a c r2 _ Hc H2),
    (mentions_member a c r3 _ Hc H3).
Qed.

Ltac in_list := simpl; repeat constructor.

Ltac characterise Hx Hp :=
  first
    [ rewrite payload_passthrough in Hp by in_list
    | rewrite (payload_strip CellInteraction) in Hp by first [exact Hx | in_list]
    | rewrite (payload_strip RowInteraction) in Hp by first [exact Hx | in_list]
    | rewrite (payload_strip ColumnStructural) in Hp by first [exact Hx | in_list]
    | rewrite payload_selection_changed in Hp
    | rewrite payload_cell_value_changed in Hp by exact Hx
    | rewrite payload_cell_editing in Hp by first [exact Hx | in_list]
    | rewrite payload_row_editing in Hp by first [exact Hx | in_list]
    | rewrite payload_filter_changed in Hp
    | rewrite payload_pagination_changed in Hp
    | rewrite payload_row_selected in Hp by exact Hx
    | rewrite payload_cell_focused in Hp by exact Hx
    | rewrite payload_body_scroll in Hp by in_list
    | rewrite payload_grid_size_changed in Hp ].

Ltac split_binds Hp :=
  repeat match type of Hp with
         | mbind _ ?m = Val _ =>
             let E := fresh "E" in
             destruct m eqn:E; cbn [mbind outcome_bind bind] in Hp;
             try discriminate Hp
         end.

Ltac clean_value Hheld Hclean :=
  first
    [ reflexivity
    | eapply mentions_forwarded; [exact Hheld | intros ?; reflexivity]
    | eapply mentions_call0; [exact Hclean | eassumption]
    | eapply mentions_forwarded_sub; [exact Hheld | | eassumption];
        intros ?; reflexivity
    | match goal with
      | E : Val _ = Val ?r |- mentions _ ?r = false =>
          injection E as <-; reflexivity
      end ].

Lemma strip_clean (c : strip_category) (h : handler) (a : handle) (fs : fields) :
  (∀ k v, forwarded h k v
          = whole_if (negb (bool_decide (k ∈ pattern_keys c))) v) →
  held_back h a fs →
  existsb (mentions a) [JObj (omit (pattern_keys c) fs)] = false.
Proof.
  intros Hfw Hheld. cbn [existsb]. rewrite orb_false_r.
  apply mentions_omit. intros k v Hin Hk. apply (Hheld k v v Hin).
  rewrite Hfw. now rewrite bool_decide_eq_false_2.
Qed.

Lemma passthrough_clean (h : handler) (a : handle) (fs : fields) :
  (∀ k v, forwarded h k v = Some v) → held_back h a fs →
  existsb (mentions a) [JObj fs] = false.
Proof.
  intros Hfw Hheld. cbn [existsb]. rewrite orb_false_r.
  apply mentions_object. intros k v Hin. exact (Hheld k v v Hin (Hfw k v)).
Qed.

Lemma sort_changed_clean (x : string) (w : world) (fs : fields) (a : handle)
    (p : list value) :
  api_answers_clean a w →
  payload on_sort_changed x w (JObj fs) = Val p →
  existsb (mentions a) p = false.
Proof.
  intros Hclean Hp. rewrite SortChanged.payload_sort_changed_any in Hp.
  destruct (call0 w (prop "api" fs) "getColumnState") as [cols| |] eqn:Hcols;
    try discriminate Hp.
  pose proof (mentions_call0 a w _ _ _ Hclean Hcols) as Hcl.
  cbn [mbind outcome_bind bind] in Hp.
  destruct cols as [| | | | |items| |]; try discriminate Hp.
  cbn [mentions] in Hcl.
  destruct (filter_out _ items) as [kept| |] eqn:Hkept; try discriminate Hp.
  cbn [mbind outcome_bind bind] in Hp.
  destruct (map_out _ kept) as [out| |] eqn:Hout; try discriminate Hp.
  cbn [mbind outcome_bind bind] in Hp. injection Hp as <-.
  cbn [existsb mentions]. rewrite orb_false_r.
  eapply (map_out_clean (mentions a) (mentions a)); [| |exact Hout].
  - intros c r Hc. now apply sort_entry_clean.
  - exact (filter_out_clean _ _ items kept Hcl Hkept).
Qed.

(** C2 (as amended).  The expressions a handler's Python spec generates
    copy into the payload only the parts of the native event that the
    handler forwards: for the cell, row and column handlers every field but
    the excluded keys; for the extracting handlers the extracted values
    alone (of [colDef] only its [field], of [column] only its [colId]); for
    the handlers that only query the grid no part of the event; and for the
    pass-through handlers every field.  A live handle that the event holds
    only outside the forwarded parts, and that the grid API's answers do not
    contain, is nowhere in the payload. *)
Theorem only_forwarded_fields_reach_payload (h : handler) (x : string)
    (w : world) (fs : fields) (a : handle) (p : list value) :
  event_var_ok h x →
  held_back h a fs →
  api_answers_clean a w →
  payload h x w (JObj fs) = Val p →
  List.map _js_expr (args_spec h (rx_Var x))
  = List.map show (args_ast h (EVar x)) ∧
  existsb (mentions a) p = false.
Proof.
  intros Hx Hheld Hclean Hp. split; [apply spec_text |].
  destruct h;
    try (now apply (sort_changed_clean x w fs a p));
    characterise Hx Hp;
    try (injection Hp as <-;
         first [ eapply passthrough_clean; [|exact Hheld]
               | eapply (strip_clean CellInteraction); [|exact Hheld]
               | eapply (strip_clean RowInteraction); [|exact Hheld]
               | eapply (strip_clean ColumnStructural); [|exact Hheld] ];
         intros k v; reflexivity).
  all: try match type of Hp with
           | context [nullish ?v] => destruct (nullish v) eqn:Hnull
           end.
  all: split_binds Hp; injection Hp as <-; cbn [existsb];
    rewrite ?orb_false_iff; repeat split; clean_value Hheld Hclean.
Qed.

(** The focused column object holds the grid API handle, yet only its
    [colId] is copied: the payload is [(2, "age")]. *)
Lemma only_forwarded_fields_reach_payload_witness :
  event_var_ok on_cell_focused Samples.event_name ∧
  held_back on_cell_focused 0%nat Samples.cell_clicked_event ∧
  api_answers_clean 0%nat Samples.browser ∧
  get "column" Samples.cell_clicked_event
  = Some (JObj [("colId", JStr "age"); ("gridApi", JHost 0%nat)]) ∧
  payload on_cell_focused Samples.event_name Samples.browser
    (JObj Samples.cell_clicked_event) = Val [JNum 2; JStr "age"] ∧
  existsb (mentions 0%nat) [JNum 2; JStr "age"] = false.
Proof.
  assert (event_var_ok on_cell_focused Samples.event_name) as Hx.
  { apply (bool_decide_unpack _). vm_compute. exact I. }
  assert (held_back on_cell_focused 0%nat Samples.cell_clicked_event) as Hheld.
  { intros k v part Hin. unfold Samples.cell_clicked_event in Hin.
    repeat (apply elem_of_cons in Hin as [[= -> ->] | Hin];
            [intros Hfw; vm_compute in Hfw;
             first [discriminate Hfw | injection Hfw as <-; reflexivity] |]).
    now apply elem_of_nil in Hin. }
  assert (api_answers_clean 0%nat Samples.browser) as Hclean.
  { intros b g Hb. unfold Samples.browser in Hb.
    apply lookup_insert_Some in Hb as [[<- [= <-]] | [_ Hb]];
      [vm_compute; repeat split |].
    apply lookup_insert_Some in Hb as [[_ Hb] | [_ Hb]]; [discriminate Hb |].
    apply lookup_insert_Some in Hb as [[_ Hb] | [_ Hb]]; [discriminate Hb |].
    apply lookup_singleton_Some in Hb as [_ Hb]. discriminate Hb. }
  assert (payload on_cell_focused Samples.event_name Samples.browser
            (JObj Samples.cell_clicked_event) = Val [JNum 2; JStr "age"]) as Hp
    by (vm_compute; reflexivity).
  split; [exact Hx |]. split; [exact Hheld |]. split; [exact Hclean |].
  split; [reflexivity |]. split; [exact Hp |].
  exact (proj2 (only_forwarded_fields_reach_payload on_cell_focused
                  Samples.event_name Samples.browser Samples.cell_clicked_event
                  0%nat [JNum 2; JStr "age"] Hx Hheld Hclean Hp)).
Defined.

(** C2 as stated fails on the pass-through handlers: the grid-ready payload
    is the native event itself, with the grid API handle in its [api]
    field. *)
Lemma grid_ready_forwards_api :
  ¬ keeps_back_api on_grid_ready Samples.e0_name Samples.browser
      Samples.grid_ready_event.
Proof.
  intros Hkeeps.
  specialize (Hkeeps 0%nat [JObj Samples.grid_ready_event] eq_refl).
  assert (payload on_grid_ready Samples.e0_name Samples.browser
            (JObj Samples.grid_ready_event)
          = Val [JObj Samples.grid_ready_event]) as Hp by (vm_compute; reflexivity).
  specialize (Hkeeps Hp). vm_compute in Hkeeps. discriminate Hkeeps.
Qed.

End Flow.

(** ** Totality and determinism *)

Module Totality.
Import Py Js Adapter JsFacts AdapterFacts.

Lemma same_fields_refl (v : value) : same_fields v v.
Proof. now destruct v. Qed.

Lemma payload_same_refl (p : list value) : Forall2 same_fields p p.
Proof. induction p; constructor; auto using same_fields_refl. Qed.

Lemma same_fields_omit (keys : list string) (fs fs' : fields) :
  (∀ k, get k fs = get k fs') →
  same_fields (JObj (omit keys fs)) (JObj (omit keys fs')).
Proof. intros Hext k. rewrite !get_omit. now rewrite Hext. Qed.

Ltac in_list := simpl; repeat constructor.

Ltac characterise_all Hx :=
  first
    [ rewrite !payload_passthrough by in_list
    | rewrite !(payload_strip CellInteraction) by first [exact Hx | in_list]
    | rewrite !(payload_strip RowInteraction) by first [exact Hx | in_list]
    | rewrite !(payload_strip ColumnStructural) by first [exact Hx | in_list]
    | rewrite !payload_selection_changed
    | rewrite !payload_cell_value_changed by exact Hx
    | rewrite !payload_cell_editing by first [exact Hx | in_list]
    | rewrite !payload_row_editing by first [exact Hx | in_list]
    | rewrite !payload_filter_changed
    | rewrite !payload_pagination_changed
    | rewrite !payload_row_selected by exact Hx
    | rewrite !payload_cell_focused by exact Hx
    | rewrite !payload_body_scroll by in_list
    | rewrite !payload_grid_size_changed ].

Ltac same_props fs fs' Hext :=
  repeat match goal with
         | |- context [prop ?k fs'] => rewrite <- (prop_ext k fs fs' (Hext k))
         end.

Ltac both_equal :=
  eexists _, _; split; [reflexivity |]; split; [reflexivity |];
  apply payload_same_refl.

Lemma has_api_inv (w : world) (fs : fields) :
  has_api w fs = true →
  ∃ a g, prop "api" fs = JHost a ∧ w !! a = Some (HApi g).
Proof.
  unfold has_api, prop.
  destruct (get "api" fs) as [[| | | | | | |a]|]; try discriminate.
  destruct (w !! a) as [[g| |]|] eqn:Hw; try discriminate.
  intros _. now exists a, g.
Qed.

Lemma total_on_one_grid (h : handler) (x : string)
    (w : world) (fs fs' : fields) :
  event_var_ok h x →
  well_formed h w fs = true →
  (∀ k, get k fs = get k fs') →
  ∃ p p' : list value,
    payload h x w (JObj fs) = Val p ∧
    payload h x w (JObj fs') = Val p' ∧
    Forall2 same_fields p p'.
Proof.
  intros Hx Hwf Hext.
  destruct h; cbn [well_formed] in Hwf.
  all: try (characterise_all Hx; same_props fs fs' Hext).
  all: try (apply has_api_inv in Hwf as (a & g & Ha & Hw); rewrite Ha;
            destruct (call0_api w a g Hw) as (H1 & _ & H3 & H4 & H5 & H6);
            rewrite ?H1, ?H3, ?H4, ?H5, ?H6; both_equal).
  all: try both_equal.
  all: try (eexists _, _; split; [reflexivity |]; split; [reflexivity |];
            constructor; [|constructor]; first
              [ exact Hext | now apply same_fields_omit ]).
  - (* on_cell_focused *)
    unfold prop. destruct (get "column" fs) as [[]|]; try discriminate Hwf;
      both_equal.
  - (* on_cell_value_changed *)
    unfold prop. destruct (get "colDef" fs) as [[]|]; try discriminate Hwf;
      both_equal.
  - (* on_cell_editing_started *)
    unfold prop. destruct (get "colDef" fs) as [[]|]; try discriminate Hwf;
      both_equal.
  - (* on_cell_editing_stopped *)
    unfold prop. destruct (get "colDef" fs) as [[]|]; try discriminate Hwf;
      both_equal.
  - (* on_row_selected *)
    destruct (get "node" fs) as [[| | | | | | |n]|] eqn:Hnode;
      try discriminate Hwf.
    destruct (w !! n) as [[|b|]|] eqn:Hn; try discriminate Hwf.
    rewrite (prop_some "node" fs _ Hnode), (call0_node w n b Hn). both_equal.
  - (* on_sort_changed *)
    destruct (get "api" fs) as [[| | | | | | |a]|] eqn:Ha; try discriminate Hwf.
    destruct (w !! a) as [[g| |]|] eqn:Hw; try discriminate Hwf.
    assert (get "api" fs' = Some (JHost a)) as Ha' by now rewrite <- Hext.
    rewrite (SortChanged.payload_sort_changed x w fs a g Ha Hw Hwf).
    rewrite (SortChanged.payload_sort_changed x w fs' a g Ha' Hw Hwf).
    both_equal.
Qed.

Lemma payload_ignores_grid (h : handler) (x : string) (w w' : world)
    (fs : fields) :
  event_var_ok h x →
  queries_grid h = false →
  payload h x w (JObj fs) = payload h x w' (JObj fs).
Proof.
  intros Hx Hq. destruct h; try discriminate Hq;
    characterise_all Hx; reflexivity.
Qed.

(** C7 (as amended).  On a native event of the shape its rule assumes, the
    expressions every handler's Python spec generates evaluate to a payload
    (they do not throw), and the payload depends on the event through its
    field values only: an event with the same field values, evaluated
    against the same live grid, gives a payload of the same values.  For
    the handlers that do not query the grid the live grid does not matter
    either: they give that payload against any grid.  (The handlers that
    query the grid answer with the grid's state at the time of the call.) *)
Theorem adapters_total_and_deterministic (h : handler) (x : string)
    (w : world) (fs fs' : fields) :
  event_var_ok h x →
  well_formed h w fs = true →
  (∀ k, get k fs = get k fs') →
  List.map _js_expr (args_spec h (rx_Var x))
  = List.map show (args_ast h (EVar x)) ∧
  ∃ p p' : list value,
    payload h x w (JObj fs) = Val p ∧
    payload h x w (JObj fs') = Val p' ∧
    Forall2 same_fields p p' ∧
    (queries_grid h = false →
     ∀ w' : world, payload h x w' (JObj fs') = Val p').
Proof.
  intros Hx Hwf Hext. split; [apply spec_text |].
  destruct (total_on_one_grid h x w fs fs' Hx Hwf Hext) as (p & p' & Hp & Hp' & Hsame).
  exists p, p'. split; [exact Hp |]. split; [exact Hp' |]. split; [exact Hsame |].
  intros Hq w'. now rewrite (payload_ignores_grid h x w' w fs' Hx Hq).
Qed.

Lemma adapters_total_and_deterministic_witness :
  event_var_ok on_row_selected Samples.event_name ∧
  well_formed on_row_selected Samples.browser Samples.row_selected_event = true ∧
  ∃ p p' : list value,
    payload on_row_selected Samples.event_name Samples.browser
      (JObj Samples.row_selected_event) = Val p ∧
    payload on_row_selected Samples.event_name Samples.browser
      (JObj Samples.row_selected_event) = Val p' ∧
    Forall2 same_fields p p' ∧
    (queries_grid on_row_selected = false →
     ∀ w' : world, payload on_row_selected Samples.event_name w'
                     (JObj Samples.row_selected_event) = Val p').
Proof.
  assert (event_var_ok on_row_selected Samples.event_name) as Hx.
  { apply (bool_decide_unpack _). vm_compute. exact I. }
  assert (well_formed on_row_selected Samples.browser Samples.row_selected_event
          = true) as Hwf by (vm_compute; reflexivity).
  split; [exact Hx |]. split; [exact Hwf |].
  exact (proj2 (adapters_total_and_deterministic on_row_selected
                  Samples.event_name Samples.browser Samples.row_selected_event
                  Samples.row_selected_event Hx Hwf (fun k => eq_refl))).
Defined.

(** C7 as stated fails for the handlers that query the live grid: the same
    selection-changed event delivers the selected row while it is selected
    and an empty list once the selection has been cleared. *)
Lemma selection_payload_follows_grid :
  ¬ same_event_same_payload on_selection_changed Samples.event_name
      Samples.selection_changed_event.
Proof.
  intros Hsame.
  specialize (Hsame Samples.browser Samples.browser_after_deselect
                [ JArr [JObj [("id", JNum 2); ("name", JStr "Bob"); ("age", JNum 34)]];
                  JStr "checkboxSelected"; JStr "selectionChanged" ]
                [ JArr []; JStr "checkboxSelected"; JStr "selectionChanged" ]).
  assert (payload on_selection_changed Samples.event_name Samples.browser
            (JObj Samples.selection_changed_event)
          = Val [ JArr [JObj [("id", JNum 2); ("name", JStr "Bob"); ("age", JNum 34)]];
                  JStr "checkboxSelected"; JStr "selectionChanged" ]) as H1
    by (vm_compute; reflexivity).
  assert (payload on_selection_changed Samples.event_name
            Samples.browser_after_deselect
            (JObj Samples.selection_changed_event)
          = Val [ JArr []; JStr "checkboxSelected"; JStr "selectionChanged" ]) as H2
    by (vm_compute; reflexivity).
  specialize (Hsame H1 H2). discriminate Hsame.
Qed.

End Totality.

(** ** The component constructor and the imperative API *)

Module Component.
Import Py.

(** C8.  When the props of [AgGrid.create] contain the key
    [auto_size_strategy], the component is created with [on_grid_ready] set
    to [size_columns_to_fit], the callback
    [(event) => event.api.sizeColumnsToFit()], whatever [on_grid_ready] the
    caller passed. *)
Theorem create_auto_size_overrides_grid_ready (children : list pyval)
    (id : string) (props : gmap string pyval) :
  is_Some (props !! "auto_size_strategy") →
  Py.props (AgGrid_create children id props) !! "on_grid_ready"
  = Some (PVar size_columns_to_fit) ∧
  _js_expr size_columns_to_fit = "(event) => event.api.sizeColumnsToFit()".
Proof.
  intros [v Hv]. split; [|reflexivity].
  unfold AgGrid_create. cbn [Py.props].
  rewrite lookup_insert_ne, lookup_delete_ne, lookup_insert_ne, Hv by done.
  apply lookup_insert_eq.
Qed.

Lemma create_auto_size_overrides_grid_ready_witness :
  is_Some (Samples.sample_props !! "auto_size_strategy") ∧
  Samples.sample_props !! "on_grid_ready" = Some (PVar (rx_Var "callerHandler")) ∧
  Py.props (AgGrid_create [] "demo-grid" Samples.sample_props) !! "on_grid_ready"
  = Some (PVar size_columns_to_fit).
Proof.
  assert (is_Some (Samples.sample_props !! "auto_size_strategy")) as Hs.
  { vm_compute. eexists. reflexivity. }
  split; [exact Hs |]. split; [vm_compute; reflexivity |].
  exact (proj1 (create_auto_size_overrides_grid_ready [] "demo-grid"
                  Samples.sample_props Hs)).
Defined.

Lemma resolve_theme_cases (mode : color_mode) (theme : pyval) :
  resolve mode (rx_match theme theme_cases (PStr "")) = theme_class_name mode theme.
Proof.
  destruct theme as [| | |s| | | | |]; try reflexivity.
  unfold rx_match, theme_cases, theme_class_name. cbn [resolve].
  destruct (String.eqb s "quartz"); [now destruct mode |].
  destruct (String.eqb s "balham"); [now destruct mode |].
  destruct (String.eqb s "alpine"); [now destruct mode |].
  destruct (String.eqb s "material"); [now destruct mode |].
  reflexivity.
Qed.

(** C9.  [AgGrid.create] takes [theme] out of the props before the
    component is built and uses it for the [class_name] prop alone: the
    class name is the quartz, balham, alpine or material light/dark pair of
    the theme value, the empty string for any other literal, and that of
    "quartz" when the caller gives no theme; every other prop is what it
    would be without a theme.  The component has no [theme] prop of its own,
    so its [theme] option is the class-level default "legacy". *)
Theorem create_theme_only_sets_class_name (children : list pyval)
    (id : string) (props : gmap string pyval) :
  let c := AgGrid_create children id props in
  let theme := default (PStr "quartz") (props !! "theme") in
  Py.props c !! "theme" = None ∧
  grid_option c "theme" = Some (PStr "legacy") ∧
  Py.props c !! "class_name" = Some (rx_match theme theme_cases (PStr "")) ∧
  (∀ mode, resolve mode (rx_match theme theme_cases (PStr ""))
           = theme_class_name mode theme) ∧
  (∀ k, k ≠ "class_name" →
        Py.props c !! k
        = Py.props (AgGrid_create children id (delete "theme" props)) !! k).
Proof.
  intros c theme.
  assert (Py.props c !! "theme" = None) as Hnone.
  { subst c. unfold AgGrid_create. cbn [Py.props].
    destruct (_ !! "auto_size_strategy").
    - rewrite lookup_insert_ne, lookup_insert_ne by done. apply lookup_delete_eq.
    - rewrite lookup_insert_ne by done. apply lookup_delete_eq. }
  split; [exact Hnone |]. split; [|split; [|split]].
  - unfold grid_option. now rewrite Hnone.
  - subst c theme. unfold AgGrid_create. cbn [Py.props].
    rewrite (lookup_insert_ne props "id" "theme") by done.
    destruct (_ !! "auto_size_strategy").
    + rewrite lookup_insert_ne by done. apply lookup_insert_eq.
    + apply lookup_insert_eq.
  - intros mode. apply resolve_theme_cases.
  - intros k Hk. subst c. unfold AgGrid_create. cbn [Py.props].
    rewrite !(lookup_insert_ne _ "class_name" "auto_size_strategy") by done.
    rewrite !(lookup_delete_ne _ "theme" "auto_size_strategy") by done.
    rewrite !(lookup_insert_ne _ "id" "auto_size_strategy") by done.
    rewrite (lookup_delete_ne props "theme" "auto_size_strategy") by done.
    assert (∀ m : gmap string pyval,
              delete "theme" (<["id":=PStr id]> (delete "theme" m))
              = delete "theme" (<["id":=PStr id]> m)) as Hdel.
    { intros m. apply map_eq. intros j.
      destruct (decide (j = "theme")) as [->|Hj].
      - now rewrite !lookup_delete_eq.
      - rewrite !lookup_delete_ne by done.
        destruct (decide (j = "id")) as [->|Hid].
        + now rewrite !lookup_insert_eq.
        + rewrite !lookup_insert_ne by done. now rewrite lookup_delete_ne. }
    rewrite Hdel.
    destruct (props !! "auto_size_strategy").
    + destruct (decide (k = "on_grid_ready")) as [->|Hg].
      * now rewrite !lookup_insert_eq.
      * rewrite !(lookup_insert_ne _ "on_grid_ready" k) by done.
        now rewrite !(lookup_insert_ne _ "class_name" k) by done.
    + now rewrite !(lookup_insert_ne _ "class_name" k) by done.
Qed.

(** C10.  For an attribute name that is not defined on [AgGridAPI],
    looking the name up on an instance gives the dynamic call of
    [__getattr__], for every name alike (no name is refused); calling it
    returns the script-call event whose JavaScript text is exactly
    [refs['<ref>']?.current?.api.<camelCase(name)>(<args>)], the arguments
    each rendered through [rx.Var.create] and joined by a comma and a space,
    with the keyword arguments handed on to [rx.call_script]. *)
Theorem dynamic_api_call_text (to_camel_case : string → string)
    (Var_create : pyval → Var) (object_attrs : list string)
    (r name : string) (args : list pyval) (kwargs : list (string * pyval)) :
  name ∉ defined_names object_attrs →
  ∃ call,
    getattr to_camel_case Var_create object_attrs (mkAgGridAPI r) name
    = DynamicCall call ∧
    call args kwargs
    = call_script
        ("refs['" +:+ r +:+ "']?.current?.api." +:+ to_camel_case name +:+ "("
           +:+ String.concat ", " (List.map (fun arg => _js_expr (Var_create arg)) args)
           +:+ ")")
        kwargs.
Proof.
  intros Hname. unfold defined_names in Hname.
  apply not_elem_of_cons in Hname as [Href Hname].
  exists (__getattr__ to_camel_case Var_create (mkAgGridAPI r) name). split.
  - unfold getattr.
    destruct (String.eqb_spec name "ref") as [->|_]; [contradiction |].
    destruct (String.eqb_spec name "_api") as [->|_].
    { exfalso. apply Hname. apply elem_of_app. left. unfold class_attrs.
      apply list_elem_of_In. simpl. tauto. }
    now rewrite bool_decide_eq_false_2.
  - unfold __getattr__, _api, fmt. cbn [ref]. f_equal.
    now rewrite !JsFacts.string_app_assoc.
Qed.

Lemma dynamic_api_call_text_witness :
  ("select_all" ∉ defined_names Samples.sample_object_attrs) ∧
  ∃ call,
    getattr Samples.sample_to_camel_case Samples.sample_Var_create
      Samples.sample_object_attrs (mkAgGridAPI "ref_demo_grid") "select_all"
    = DynamicCall call ∧
    call [PStr "filtered"; PBool true] []
    = call_script "refs['ref_demo_grid']?.current?.api.selectAll('filtered', true)" [].
Proof.
  assert ("select_all" ∉ defined_names Samples.sample_object_attrs) as Hname.
  { apply (bool_decide_unpack _). vm_compute. exact I. }
  split; [exact Hname |].
  exact (dynamic_api_call_text Samples.sample_to_camel_case
           Samples.sample_Var_create Samples.sample_object_attrs
           "ref_demo_grid" "select_all" [PStr "filtered"; PBool true] [] Hname).
Defined.

End Component.

(** ** More on the handlers' payloads *)

Module MorePayloads.
Import Py Js Adapter Reads JsFacts AdapterFacts.

Lemma map_out_length {A B} (f : A → outcome B) (l : list A) (p : list B) :
  map_out f l = Val p → length p = length l.
Proof.
  revert p. induction l as [|a l IH]; intros p; simpl.
  - now intros [= <-].
  - destruct (f a) as [b| |]; try discriminate. cbn [mbind outcome_bind bind].
    destruct (map_out f l) as [bs| |]; try discriminate.
    cbn [mbind outcome_bind bind]. intros [= <-]. simpl. now rewrite (IH bs).
Qed.

Lemma args_ast_length (h : handler) (ev : expr) (v : Var) :
  length (args_ast h ev) = length (args_spec h v).
Proof. now destruct h. Qed.

(** Whenever a handler delivers a payload, the payload has as many elements
    as the handler's Python spec returns expressions: the arity is fixed per
    handler, whatever the native event and the live grid are. *)
Theorem payload_arity (h : handler) (x : string) (w : world) (e : value)
    (p : list value) :
  payload h x w e = Val p →
  length p = length (args_spec h (rx_Var x)).
Proof.
  intros Hp. unfold payload in Hp. apply map_out_length in Hp.
  now rewrite Hp, (args_ast_length h (EVar x) (rx_Var x)).
Qed.

Lemma payload_arity_witness :
  payload on_pagination_changed Samples.event_name Samples.browser
    (JObj Samples.sort_changed_event) = Val [JNum 2; JNum 5; JNum 5] ∧
  length [JNum 2; JNum 5; JNum 5]
  = length (args_spec on_pagination_changed (rx_Var Samples.event_name)).
Proof.
  assert (payload on_pagination_changed Samples.event_name Samples.browser
            (JObj Samples.sort_changed_event) = Val [JNum 2; JNum 5; JNum 5])
    as Hp by (vm_compute; reflexivity).
  split; [exact Hp |].
  exact (payload_arity on_pagination_changed Samples.event_name Samples.browser
           (JObj Samples.sort_changed_event) [JNum 2; JNum 5; JNum 5] Hp).
Defined.

Lemma call0_nullish (w : world) (v : value) (m : string) :
  nullish v = true → call0 w v m = Throw TypeError.
Proof. now destruct v. Qed.

Lemma member_nullish (v : value) (p : string) :
  nullish v = true → member v p = Throw TypeError.
Proof. now destruct v. Qed.

Lemma missing_required_field_throws_trees (h : handler) (x : string) (w : world)
    (fs : fields) (k : string) :
  event_var_ok h x →
  required_field h = Some k →
  nullish (prop k fs) = true →
  payload h x w (JObj fs) = Throw TypeError.
Proof.
  intros Hx Hreq Hnull.
  destruct h; try discriminate Hreq; injection Hreq as <-;
    first
      [ rewrite payload_cell_value_changed by exact Hx
      | rewrite payload_cell_editing by first [exact Hx | simpl; repeat constructor]
      | rewrite payload_row_selected by exact Hx
      | rewrite payload_selection_changed
      | rewrite SortChanged.payload_sort_changed_any
      | rewrite payload_filter_changed
      | rewrite payload_pagination_changed ];
    rewrite ?(call0_nullish w _ _ Hnull), ?(member_nullish _ _ Hnull);
    reflexivity.
Qed.

(** A handler that queries the grid API, asks the row node or reads the
    column definition throws a TypeError when the native event lacks that
    field, or holds [null] or [undefined] in it: nothing guards the access. *)
Theorem missing_required_field_throws (h : handler) (x : string) (w : world)
    (fs : fields) (k : string) :
  event_var_ok h x →
  required_field h = Some k →
  nullish (prop k fs) = true →
  List.map _js_expr (args_spec h (rx_Var x))
  = List.map show (args_ast h (EVar x)) ∧
  payload h x w (JObj fs) = Throw TypeError.
Proof.
  intros. split; [apply spec_text |].
  eapply missing_required_field_throws_trees; eassumption.
Qed.

Lemma missing_required_field_throws_witness :
  event_var_ok on_cell_value_changed Samples.event_name ∧
  required_field on_cell_value_changed = Some "colDef" ∧
  nullish (prop "colDef" Samples.grid_ready_event) = true ∧
  payload on_cell_value_changed Samples.event_name Samples.browser
    (JObj Samples.grid_ready_event) = Throw TypeError.
Proof.
  assert (event_var_ok on_cell_value_changed Samples.event_name) as Hx.
  { apply (bool_decide_unpack _). vm_compute. exact I. }
  split; [exact Hx |]. split; [reflexivity |]. split; [reflexivity |].
  exact (proj2 (missing_required_field_throws on_cell_value_changed
                  Samples.event_name Samples.browser Samples.grid_ready_event
                  "colDef" Hx eq_refl eq_refl)).
Defined.

Lemma pagination_changed_live_triple_trees (x : string) (w : world) (fs : fields)
    (a : handle) (g : GridApi) :
  get "api" fs = Some (JHost a) →
  w !! a = Some (HApi g) →
  payload on_pagination_changed x w (JObj fs)
  = Val [ paginationGetCurrentPage g; paginationGetTotalPages g;
          paginationGetPageSize g ].
Proof.
  intros Hapi Hw. rewrite payload_pagination_changed, (prop_some _ _ _ Hapi).
  destruct (call0_api w a g Hw) as (_ & _ & _ & -> & -> & ->). reflexivity.
Qed.

(** The pagination-changed payload is the triple (current page, total
    pages, page size) that the grid API answers at the time of the call; of
    the native event only the [api] field matters. *)
Theorem pagination_changed_live_triple (x : string) (w : world) (fs : fields)
    (a : handle) (g : GridApi) :
  get "api" fs = Some (JHost a) →
  w !! a = Some (HApi g) →
  List.map _js_expr (args_spec on_pagination_changed (rx_Var x))
  = List.map show (args_ast on_pagination_changed (EVar x)) ∧
  payload on_pagination_changed x w (JObj fs)
  = Val [ paginationGetCurrentPage g; paginationGetTotalPages g;
          paginationGetPageSize g ].
Proof.
  intros. split; [apply spec_text |].
  eapply pagination_changed_live_triple_trees; eassumption.
Qed.

Lemma pagination_changed_live_triple_witness :
  get "api" Samples.sort_changed_event = Some (JHost 0%nat) ∧
  Samples.browser !! 0%nat = Some (HApi Samples.grid_sorted_by_name_then_age) ∧
  payload on_pagination_changed Samples.event_name Samples.browser
    (JObj Samples.sort_changed_event) = Val [JNum 2; JNum 5; JNum 5].
Proof.
  split; [reflexivity |]. split; [vm_compute; reflexivity |].
  refine (proj2 (pagination_changed_live_triple Samples.event_name
                   Samples.browser Samples.sort_changed_event 0%nat
                   Samples.grid_sorted_by_name_then_age _ _));
    vm_compute; reflexivity.
Defined.

Lemma filter_changed_live_model_trees (x : string) (w : world) (fs : fields)
    (a : handle) (g : GridApi) :
  get "api" fs = Some (JHost a) →
  w !! a = Some (HApi g) →
  payload on_filter_changed x w (JObj fs) = Val [getFilterModel g].
Proof.
  intros Hapi Hw. rewrite payload_filter_changed, (prop_some _ _ _ Hapi).
  destruct (call0_api w a g Hw) as (_ & _ & -> & _). reflexivity.
Qed.

(** The filter-changed payload is the one filter model that the grid API
    answers at the time of the call. *)
Theorem filter_changed_live_model (x : string) (w : world) (fs : fields)
    (a : handle) (g : GridApi) :
  get "api" fs = Some (JHost a) →
  w !! a = Some (HApi g) →
  List.map _js_expr (args_spec on_filter_changed (rx_Var x))
  = List.map show (args_ast on_filter_changed (EVar x)) ∧
  payload on_filter_changed x w (JObj fs) = Val [getFilterModel g].
Proof.
  intros. split; [apply spec_text |].
  eapply filter_changed_live_model_trees; eassumption.
Qed.

Lemma filter_changed_live_model_witness :
  get "api" Samples.sort_changed_event = Some (JHost 0%nat) ∧
  Samples.browser !! 0%nat = Some (HApi Samples.grid_sorted_by_name_then_age) ∧
  payload on_filter_changed Samples.event_name Samples.browser
    (JObj Samples.sort_changed_event) = Val [JObj []].
Proof.
  split; [reflexivity |]. split; [vm_compute; reflexivity |].
  refine (proj2 (filter_changed_live_model Samples.event_name Samples.browser
                   Samples.sort_changed_event 0%nat
                   Samples.grid_sorted_by_name_then_age _ _));
    vm_compute; reflexivity.
Defined.

Lemma row_selected_asks_node_trees (x : string) (w : world) (fs : fields)
    (n : handle) (b : bool) :
  event_var_ok on_row_selected x →
  get "node" fs = Some (JHost n) →
  w !! n = Some (HNode b) →
  payload on_row_selected x w (JObj fs)
  = Val [prop "data" fs; JBool b; prop "rowIndex" fs].
Proof.
  intros Hx Hnode Hw. rewrite payload_row_selected by exact Hx.
  now rewrite (prop_some _ _ _ Hnode), (call0_node w n b Hw).
Qed.

(** The row-selected payload is (the event's row data, whether the row node
    answers that it is selected at the time of the call, the event's row
    index). *)
Theorem row_selected_asks_node (x : string) (w : world) (fs : fields)
    (n : handle) (b : bool) :
  event_var_ok on_row_selected x →
  get "node" fs = Some (JHost n) →
  w !! n = Some (HNode b) →
  List.map _js_expr (args_spec on_row_selected (rx_Var x))
  = List.map show (args_ast on_row_selected (EVar x)) ∧
  payload on_row_selected x w (JObj fs)
  = Val [prop "data" fs; JBool b; prop "rowIndex" fs].
Proof.
  intros. split; [apply spec_text |].
  eapply row_selected_asks_node_trees; eassumption.
Qed.

Lemma row_selected_asks_node_witness :
  event_var_ok on_row_selected Samples.event_name ∧
  payload on_row_selected Samples.event_name Samples.browser
    (JObj Samples.row_selected_event)
  = Val [JObj [("name", JStr "Bob"); ("age", JNum 34)]; JBool true; JNum 1].
Proof.
  assert (event_var_ok on_row_selected Samples.event_name) as Hx.
  { apply (bool_decide_unpack _). vm_compute. exact I. }
  split; [exact Hx |].
  refine (proj2 (row_selected_asks_node Samples.event_name Samples.browser
                   Samples.row_selected_event 2%nat true Hx _ _));
    vm_compute; reflexivity.
Defined.

Lemma cell_focused_column_optional_trees (x : string) (w : world) (fs : fields) :
  event_var_ok on_cell_focused x →
  (nullish (prop "column" fs) = true →
   payload on_cell_focused x w (JObj fs) = Val [prop "rowIndex" fs; JUndefined]) ∧
  (∀ col : fields, get "column" fs = Some (JObj col) →
   payload on_cell_focused x w (JObj fs)
   = Val [prop "rowIndex" fs; prop "colId" col]).
Proof.
  intros Hx. split.
  - intros Hnull. rewrite payload_cell_focused by exact Hx. now rewrite Hnull.
  - intros col Hcol. rewrite payload_cell_focused by exact Hx.
    now rewrite (prop_some _ _ _ Hcol).
Qed.

(** The cell-focused payload is (row index, column id).  A focus event
    without a column, or with [null] or [undefined] for it, does not throw:
    the optional chaining delivers [undefined] as the column id. *)
Theorem cell_focused_column_optional (x : string) (w : world) (fs : fields) :
  event_var_ok on_cell_focused x →
  List.map _js_expr (args_spec on_cell_focused (rx_Var x))
  = List.map show (args_ast on_cell_focused (EVar x)) ∧
  (nullish (prop "column" fs) = true →
   payload on_cell_focused x w (JObj fs) = Val [prop "rowIndex" fs; JUndefined]) ∧
  (∀ col : fields, get "column" fs = Some (JObj col) →
   payload on_cell_focused x w (JObj fs)
   = Val [prop "rowIndex" fs; prop "colId" col]).
Proof.
  intros. split; [apply spec_text |].
  eapply cell_focused_column_optional_trees; eassumption.
Qed.

Lemma cell_focused_column_optional_witness :
  event_var_ok on_cell_focused Samples.event_name ∧
  payload on_cell_focused Samples.event_name Samples.browser
    (JObj Samples.row_selected_event) = Val [JNum 1; JUndefined] ∧
  payload on_cell_focused Samples.event_name Samples.browser
    (JObj Samples.cell_clicked_event) = Val [JNum 2; JStr "age"].
Proof.
  assert (event_var_ok on_cell_focused Samples.event_name) as Hx.
  { apply (bool_decide_unpack _). vm_compute. exact I. }
  split; [exact Hx |]. split.
  - exact (proj1 (proj2 (cell_focused_column_optional Samples.event_name
                           Samples.browser Samples.row_selected_event Hx))
             eq_refl).
  - exact (proj2 (proj2 (cell_focused_column_optional Samples.event_name
                           Samples.browser Samples.cell_clicked_event Hx))
             [("colId", JStr "age"); ("gridApi", JHost 0%nat)] eq_refl).
Defined.

Lemma cell_editing_triple_trees (h : handler) (x : string) (w : world)
    (fs cd : fields) :
  h ∈ [on_cell_editing_started; on_cell_editing_stopped] →
  event_var_ok h x →
  get "colDef" fs = Some (JObj cd) →
  payload h x w (JObj fs) = Val [prop "rowIndex" fs; prop "field" cd; prop "value" fs].
Proof.
  intros Hh Hx Hcd. rewrite payload_cell_editing by assumption.
  now rewrite (prop_some _ _ _ Hcd).
Qed.

(** The cell-editing started and stopped payloads are
    (row index, the column definition's field, the cell's current value). *)
Theorem cell_editing_triple (h : handler) (x : string) (w : world)
    (fs cd : fields) :
  h ∈ [on_cell_editing_started; on_cell_editing_stopped] →
  event_var_ok h x →
  get "colDef" fs = Some (JObj cd) →
  List.map _js_expr (args_spec h (rx_Var x))
  = List.map show (args_ast h (EVar x)) ∧
  payload h x w (JObj fs) = Val [prop "rowIndex" fs; prop "field" cd; prop "value" fs].
Proof.
  intros. split; [apply spec_text |].
  eapply cell_editing_triple_trees; eassumption.
Qed.

Lemma cell_editing_triple_witness :
  on_cell_editing_stopped ∈ [on_cell_editing_started; on_cell_editing_stopped] ∧
  event_var_ok on_cell_editing_stopped Samples.event_name ∧
  payload on_cell_editing_stopped Samples.event_name Samples.browser
    (JObj Samples.cell_clicked_event) = Val [JNum 2; JStr "age"; JNum 31].
Proof.
  assert (on_cell_editing_stopped
          ∈ [on_cell_editing_started; on_cell_editing_stopped]) as Hh.
  { apply elem_of_cons. right. apply elem_of_cons. now left. }
  assert (event_var_ok on_cell_editing_stopped Samples.event_name) as Hx.
  { apply (bool_decide_unpack _). vm_compute. exact I. }
  split; [exact Hh |]. split; [exact Hx |].
  exact (proj2 (cell_editing_triple on_cell_editing_stopped Samples.event_name
                  Samples.browser Samples.cell_clicked_event
                  [("field", JStr "age")] Hh Hx eq_refl)).
Defined.

Lemma plain_reads_never_throw_trees (h : handler) (x : string) (w : world)
    (fs : fields) (keys : list string) :
  event_var_ok h x →
  plain_reads h = Some keys →
  payload h x w (JObj fs) = Val (List.map (fun k => prop k fs) keys) ∧
  (∀ k, k ∈ keys → get k fs = None →
        JUndefined ∈ List.map (fun k => prop k fs) keys).
Proof.
  intros Hx Hkeys. split.
  - destruct h; try discriminate Hkeys; injection Hkeys as <-.
    + apply payload_grid_size_changed.
    + apply payload_row_editing; [simpl; repeat constructor | exact Hx].
    + apply payload_row_editing; [simpl; repeat constructor | exact Hx].
    + apply payload_body_scroll. simpl. repeat constructor.
    + apply payload_body_scroll. simpl. repeat constructor.
  - intros k Hk Hnone. apply list_elem_of_fmap. exists k. split; [|exact Hk].
    unfold prop. now rewrite Hnone.
Qed.

(** The row-editing, body-scroll and grid-size handlers only read fields of
    the native event: on every event object they deliver the listed fields
    in order and never throw; a field that the event lacks is delivered as
    [undefined]. *)
Theorem plain_reads_never_throw (h : handler) (x : string) (w : world)
    (fs : fields) (keys : list string) :
  event_var_ok h x →
  plain_reads h = Some keys →
  List.map _js_expr (args_spec h (rx_Var x))
  = List.map show (args_ast h (EVar x)) ∧
  payload h x w (JObj fs) = Val (List.map (fun k => prop k fs) keys) ∧
  (∀ k, k ∈ keys → get k fs = None →
        JUndefined ∈ List.map (fun k => prop k fs) keys).
Proof.
  intros. split; [apply spec_text |].
  eapply plain_reads_never_throw_trees; eassumption.
Qed.

Lemma plain_reads_never_throw_witness :
  event_var_ok on_row_editing_started Samples.event_name ∧
  plain_reads on_row_editing_started = Some ["rowIndex"; "data"] ∧
  payload on_row_editing_started Samples.event_name Samples.browser
    (JObj Samples.grid_ready_event) = Val [JUndefined; JUndefined].
Proof.
  assert (event_var_ok on_row_editing_started Samples.event_name) as Hx.
  { apply (bool_decide_unpack _). vm_compute. exact I. }
  split; [exact Hx |]. split; [reflexivity |].
  exact (proj1 (proj2 (plain_reads_never_throw on_row_editing_started
                         Samples.event_name Samples.browser
                         Samples.grid_ready_event ["rowIndex"; "data"]
                         Hx eq_refl))).
Defined.

End MorePayloads.

(** ** Edge behaviour of the stripping block and of the sort entries *)

Module Edges.
Import Py Js Adapter Reads JsFacts AdapterFacts.

Lemma lookup_var_dead_zone_in (x : string) (names : list string) (ρ : env) :
  x ∈ names → lookup_var x (dead_zone names ++ ρ) = Some None.
Proof.
  induction names as [|y names IH]; intros Hx.
  - now apply elem_of_nil in Hx.
  - simpl. destruct (String.eqb_spec x y) as [->|Hne]; [reflexivity |].
    apply IH. apply elem_of_cons in Hx as [Heq | Hx]; [contradiction | exact Hx].
Qed.

Lemma strip_event_name_clash_throws_trees (c : strip_category) (h : handler)
    (x : string) (w : world) (e : value) :
  h ∈ strip_handlers c →
  x ∈ declared (pattern_keys c) →
  payload h x w e = Throw ReferenceError.
Proof.
  intros Hh Hx.
  assert (args_ast h (EVar x) = [strip (pattern_keys c) (EVar x)]) as Hast.
  { destruct c; simpl in Hh;
      repeat (apply elem_of_cons in Hh as [-> | Hh]; [reflexivity |]);
      now apply elem_of_nil in Hh. }
  unfold payload. rewrite Hast, map_out_cons. unfold strip. cbn [eval].
  rewrite bool_decide_eq_true_2 by apply nodup_pattern.
  unfold read_var. rewrite lookup_var_dead_zone_in by exact Hx. reflexivity.
Qed.

(** The stripping block declares its excluded keys and [rest] as local
    names.  If the framework named the native event by one of them (say
    [event]), the cell, row and column handlers would throw a
    ReferenceError on every event: the initialiser would read the block's
    own, not yet initialised, binding. *)
Theorem strip_event_name_clash_throws (c : strip_category) (h : handler)
    (x : string) (w : world) (e : value) :
  h ∈ strip_handlers c →
  x ∈ declared (pattern_keys c) →
  List.map _js_expr (args_spec h (rx_Var x))
  = List.map show (args_ast h (EVar x)) ∧
  payload h x w e = Throw ReferenceError.
Proof.
  intros. split; [apply spec_text |].
  eapply strip_event_name_clash_throws_trees; eassumption.
Qed.

Lemma strip_event_name_clash_throws_witness :
  on_cell_clicked ∈ strip_handlers CellInteraction ∧
  "event" ∈ declared (pattern_keys CellInteraction) ∧
  payload on_cell_clicked "event" Samples.browser
    (JObj Samples.cell_clicked_event) = Throw ReferenceError.
Proof.
  assert (on_cell_clicked ∈ strip_handlers CellInteraction) as Hh.
  { simpl. apply elem_of_cons. now left. }
  assert ("event" ∈ declared (pattern_keys CellInteraction)) as Hx.
  { apply (bool_decide_unpack _). vm_compute. exact I. }
  split; [exact Hh |]. split; [exact Hx |].
  exact (proj2 (strip_event_name_clash_throws CellInteraction on_cell_clicked
                  "event" Samples.browser (JObj Samples.cell_clicked_event)
                  Hh Hx)).
Defined.

Lemma sorted_entries_shape (cols : list value) :
  Forall is_sort_entry (List.map sort_entry (List.filter is_sorted_column cols)).
Proof.
  induction cols as [|c cols IH]; [constructor |].
  simpl. destruct (is_sorted_column c) eqn:Hc; [|exact IH].
  simpl. constructor; [|exact IH].
  destruct c as [| | | | | |fs|]; try discriminate Hc.
  now exists (prop "colId" fs), (prop "sort" fs), (prop "sortIndex" fs).
Qed.

Lemma filter_none (f : value → bool) (cols : list value) :
  forallb (fun c => negb (f c)) cols = true → List.filter f cols = [].
Proof.
  induction cols as [|c cols IH]; [reflexivity |]. simpl.
  intros H. apply andb_true_iff in H as [Hc Hcols].
  apply negb_true_iff in Hc. rewrite Hc. now apply IH.
Qed.

Lemma sort_changed_entries_shape_trees (x : string) (w : world) (fs : fields)
    (a : handle) (g : GridApi) :
  get "api" fs = Some (JHost a) →
  w !! a = Some (HApi g) →
  forallb is_object (getColumnState g) = true →
  ∃ entries : list value,
    payload on_sort_changed x w (JObj fs) = Val [JArr entries] ∧
    length entries = length (List.filter is_sorted_column (getColumnState g)) ∧
    (length entries ≤ length (getColumnState g))%nat ∧
    Forall is_sort_entry entries ∧
    (forallb (fun c => negb (is_sorted_column c)) (getColumnState g) = true →
     entries = []).
Proof.
  intros Hapi Hw Hobj.
  exists (List.map sort_entry (List.filter is_sorted_column (getColumnState g))).
  split; [now apply (SortChanged.payload_sort_changed x w fs a g) |].
  split; [apply length_map |]. split.
  - rewrite length_map. apply List.filter_length_le.
  - split; [apply sorted_entries_shape |].
    intros Hnone. now rewrite (filter_none _ _ Hnone).
Qed.

(** Every entry of the sort-changed payload is an object with exactly the
    keys [colId], [sort], [sortIndex] and a truthy [sort]; there are as many
    entries as columns with a truthy [sort], never more than the column
    state has columns, and none at all when no column is sorted. *)
Theorem sort_changed_entries_shape (x : string) (w : world) (fs : fields)
    (a : handle) (g : GridApi) :
  get "api" fs = Some (JHost a) →
  w !! a = Some (HApi g) →
  forallb is_object (getColumnState g) = true →
  List.map _js_expr (args_spec on_sort_changed (rx_Var x))
  = List.map show (args_ast on_sort_changed (EVar x)) ∧
  ∃ entries : list value,
    payload on_sort_changed x w (JObj fs) = Val [JArr entries] ∧
    length entries = length (List.filter is_sorted_column (getColumnState g)) ∧
    (length entries ≤ length (getColumnState g))%nat ∧
    Forall is_sort_entry entries ∧
    (forallb (fun c => negb (is_sorted_column c)) (getColumnState g) = true →
     entries = []).
Proof.
  intros. split; [apply spec_text |].
  eapply sort_changed_entries_shape_trees; eassumption.
Qed.

Lemma sort_changed_entries_shape_witness :
  get "api" Samples.sort_changed_event = Some (JHost 0%nat) ∧
  Samples.browser !! 0%nat = Some (HApi Samples.grid_sorted_by_name_then_age) ∧
  ∃ entries : list value,
    payload on_sort_changed Samples.event_name Samples.browser
      (JObj Samples.sort_changed_event) = Val [JArr entries] ∧
    length entries = 2%nat ∧ Forall is_sort_entry entries.
Proof.
  split; [reflexivity |]. split; [vm_compute; reflexivity |].
  destruct (sort_changed_entries_shape Samples.event_name Samples.browser
              Samples.sort_changed_event 0%nat
              Samples.grid_sorted_by_name_then_age)
    as (_ & entries & Hp & Hlen & _ & Hshape & _);
    [reflexivity | vm_compute; reflexivity | vm_compute; reflexivity |].
  exists entries. split; [exact Hp |]. split; [|exact Hshape].
  rewrite Hlen. vm_compute. reflexivity.
Defined.

End Edges.

(** ** More on the component constructors *)

Module MoreComponent.
Import Py Wrapper.

Lemma create_value_str (children : list pyval) (id : string)
    (props : gmap string pyval) :
  AgGrid_create_value children (PStr id) props = AgGrid_create children id props.
Proof. reflexivity. Qed.

Lemma create_value_lookup (children : list pyval) (id : pyval)
    (props : gmap string pyval) (k : string) :
  k ∉ ["id"; "theme"; "class_name"; "on_grid_ready"] →
  Py.props (AgGrid_create_value children id props) !! k = props !! k.
Proof.
  intros Hk. apply not_elem_of_cons in Hk as [Hid Hk].
  apply not_elem_of_cons in Hk as [Hth Hk].
  apply not_elem_of_cons in Hk as [Hcn Hk].
  apply not_elem_of_cons in Hk as [Hgr _].
  unfold AgGrid_create_value. cbn [Py.props].
  destruct (_ !! "auto_size_strategy").
  - rewrite lookup_insert_ne, lookup_insert_ne, lookup_delete_ne by done.
    now rewrite lookup_insert_ne.
  - rewrite lookup_insert_ne, lookup_delete_ne by done.
    now rewrite lookup_insert_ne.
Qed.

(** [AgGrid.create] keeps the children, records the [id] as a prop, and
    leaves every prop other than [id], [theme], [class_name] and
    [on_grid_ready] as the caller passed it; without [auto_size_strategy]
    among the props, [on_grid_ready] too is the caller's (or absent). *)
Theorem create_leaves_other_props (children : list pyval) (id : string)
    (props : gmap string pyval) :
  let c := AgGrid_create children id props in
  Py.children c = children ∧
  Py.props c !! "id" = Some (PStr id) ∧
  (props !! "auto_size_strategy" = None →
   Py.props c !! "on_grid_ready" = props !! "on_grid_ready") ∧
  (∀ k, k ∉ ["id"; "theme"; "class_name"; "on_grid_ready"] →
        Py.props c !! k = props !! k).
Proof.
  intros c. subst c. split; [reflexivity |]. split; [|split].
  - unfold AgGrid_create. cbn [Py.props].
    destruct (_ !! "auto_size_strategy").
    + rewrite lookup_insert_ne, lookup_insert_ne, lookup_delete_ne by done.
      apply lookup_insert_eq.
    + rewrite lookup_insert_ne, lookup_delete_ne by done.
      apply lookup_insert_eq.
  - intros Hnone. unfold AgGrid_create. cbn [Py.props].
    rewrite (lookup_insert_ne _ "class_name" "auto_size_strategy") by done.
    rewrite (lookup_delete_ne _ "theme" "auto_size_strategy") by done.
    rewrite (lookup_insert_ne _ "id" "auto_size_strategy") by done.
    rewrite Hnone.
    rewrite lookup_insert_ne, lookup_delete_ne by done.
    now rewrite lookup_insert_ne.
  - intros k Hk. rewrite <- create_value_str. now apply create_value_lookup.
Qed.

(** [WrappedAgGrid.create] without an [id] among the props raises a
    TypeError: the grid constructor it delegates to requires the keyword. *)
Theorem wrapped_create_requires_id (children : list pyval)
    (props : gmap string pyval) :
  props !! "id" = None →
  WrappedAgGrid_create children props = inl PyTypeError.
Proof.
  intros Hid. unfold WrappedAgGrid_create, AgGrid_create_kw.
  rewrite lookup_delete_ne, lookup_delete_ne by done. now rewrite Hid.
Qed.

Lemma wrapped_create_requires_id_witness :
  Samples.sample_props !! "id" = None ∧
  WrappedAgGrid_create [] Samples.sample_props = inl PyTypeError.
Proof.
  assert (Samples.sample_props !! "id" = None) as Hid by (vm_compute; reflexivity).
  split; [exact Hid |].
  exact (wrapped_create_requires_id [] Samples.sample_props Hid).
Defined.

(** With an [id], [WrappedAgGrid.create] returns a container whose width
    and height are the caller's, or "100%" and "400px" when not given, and
    whose child is the grid: [width] and [height] do not reach the grid's
    props, the [id] does, and every prop other than [width], [height],
    [id], [theme], [class_name], [on_grid_ready] reaches the grid as
    passed. *)
Theorem wrapped_create_sizes_container (children : list pyval)
    (props : gmap string pyval) (id : pyval) :
  props !! "id" = Some id →
  ∃ d : Div,
    WrappedAgGrid_create children props = inr d ∧
    div_width d = default (PStr "100%") (props !! "width") ∧
    div_height d = default (PStr "400px") (props !! "height") ∧
    Py.children (div_child d) = children ∧
    Py.props (div_child d) !! "width" = None ∧
    Py.props (div_child d) !! "height" = None ∧
    Py.props (div_child d) !! "id" = Some id ∧
    (∀ k, k ∉ ["width"; "height"; "id"; "theme"; "class_name"; "on_grid_ready"] →
          Py.props (div_child d) !! k = props !! k).
Proof.
  intros Hid. unfold WrappedAgGrid_create, AgGrid_create_kw.
  rewrite lookup_delete_ne, lookup_delete_ne, Hid by done.
  eexists. split; [reflexivity |]. cbn [div_width div_height div_child].
  split; [reflexivity |]. split.
  { now rewrite lookup_delete_ne by done. }
  split; [reflexivity |]. split; [|split; [|split]].
  - rewrite create_value_lookup.
    + rewrite lookup_delete_ne, lookup_delete_ne by done. apply lookup_delete_eq.
    + apply (bool_decide_unpack _). vm_compute. exact I.
  - rewrite create_value_lookup.
    + rewrite lookup_delete_ne by done. apply lookup_delete_eq.
    + apply (bool_decide_unpack _). vm_compute. exact I.
  - unfold AgGrid_create_value. cbn [Py.props].
    destruct (_ !! "auto_size_strategy").
    + rewrite lookup_insert_ne, lookup_insert_ne, lookup_delete_ne by done.
      apply lookup_insert_eq.
    + rewrite lookup_insert_ne, lookup_delete_ne by done.
      apply lookup_insert_eq.
  - intros k Hk.
    apply not_elem_of_cons in Hk as [Hw Hk].
    apply not_elem_of_cons in Hk as [Hh Hk].
    assert (k ≠ "id") as Hkid.
    { intros ->. apply Hk. apply elem_of_cons. now left. }
    rewrite create_value_lookup.
    + now rewrite !lookup_delete_ne by done.
    + intros Hin. apply Hk. apply elem_of_cons. now right.
Qed.

Lemma wrapped_create_sizes_container_witness :
  (<["id" := PStr "demo-grid"]> Samples.sample_props) !! "id"
    = Some (PStr "demo-grid") ∧
  ∃ d : Div,
    WrappedAgGrid_create [] (<["id" := PStr "demo-grid"]> Samples.sample_props)
      = inr d ∧
    div_width d = PStr "100%" ∧ div_height d = PStr "400px" ∧
    Py.props (div_child d) !! "pagination" = Some (PBool true).
Proof.
  assert ((<["id" := PStr "demo-grid"]> Samples.sample_props) !! "id"
          = Some (PStr "demo-grid")) as Hid by apply lookup_insert_eq.
  split; [exact Hid |].
  destruct (wrapped_create_sizes_container []
              (<["id" := PStr "demo-grid"]> Samples.sample_props)
              (PStr "demo-grid") Hid)
    as (d & Hd & Hw & Hh & _ & _ & _ & _ & Hother).
  exists d. split; [exact Hd |].
  split; [rewrite Hw; vm_compute; reflexivity |].
  split; [rewrite Hh; vm_compute; reflexivity |].
  rewrite Hother; [vm_compute; reflexivity |].
  apply (bool_decide_unpack _). vm_compute. exact I.
Defined.

(** The theme table of [AgGrid.create] and the stylesheets of [add_imports]
    agree: every theme the table names has class names
    ["ag-theme-<name>"] (light) and ["ag-theme-<name>-dark"] (dark), and
    its stylesheet ["ag-grid-community/styles/ag-theme-<name>.css"] is
    imported, as is the base stylesheet. *)
Theorem themes_have_stylesheets :
  "ag-grid-community/styles/ag-grid.css" ∈ stylesheets ∧
  ∀ name cls, (name, cls) ∈ theme_cases →
    cls = rx_color_mode_cond ("ag-theme-" +:+ name) ("ag-theme-" +:+ name +:+ "-dark") ∧
    ("ag-grid-community/styles/ag-theme-" +:+ name +:+ ".css") ∈ stylesheets.
Proof.
  split.
  - apply (bool_decide_unpack _). vm_compute. exact I.
  - intros name cls Hin. unfold theme_cases in Hin.
    repeat (apply elem_of_cons in Hin as [[= -> ->] | Hin];
            [split; [reflexivity |];
             apply (bool_decide_unpack _); vm_compute; exact I |]).
    now apply elem_of_nil in Hin.
Qed.

End MoreComponent.

(** ** The demo application's handlers *)

Module DemoFacts.
Import Py DemoApp.

(** A cell edit whose row index is negative or not below the number of rows
    leaves the state as it is. *)
Theorem cell_edit_out_of_range_ignored (self : State) (row_index : Z)
    (field : string) (new_value : pyval) :
  row_index < 0 ∨ Z.of_nat (length (row_data self)) <= row_index →
  on_cell_value_changed self row_index field new_value = self.
Proof.
  intros Hout. unfold on_cell_value_changed.
  destruct (0 <=? row_index) eqn:Hlo; [|reflexivity].
  destruct (row_index <? Z.of_nat (length (row_data self))) eqn:Hhi;
    [|reflexivity].
  apply Z.leb_le in Hlo. apply Z.ltb_lt in Hhi. lia.
Qed.

Lemma cell_edit_out_of_range_ignored_witness :
  (8 < 0 ∨ Z.of_nat (length (row_data (mkState ∅ [0%nat; 1%nat] []))) <= 8) ∧
  on_cell_value_changed (mkState ∅ [0%nat; 1%nat] []) 8 "age" (PInt 31)
  = mkState ∅ [0%nat; 1%nat] [].
Proof.
  assert (8 < 0 ∨ Z.of_nat (length (row_data (mkState ∅ [0%nat; 1%nat] []))) <= 8)
    as H.
  { right. simpl. lia. }
  split; [exact H |].
  exact (cell_edit_out_of_range_ignored (mkState ∅ [0%nat; 1%nat] []) 8 "age"
           (PInt 31) H).
Defined.

(** A cell edit at a row index within range writes the new value into that
    field of the dict which the entry refers to, in place.  The two lists
    keep their entries and every other dict is unchanged, and so are the
    dict's other fields; but every entry of [row_data] or [selected_rows]
    that is the same dict shows the new value too, while an entry that is
    another dict reads as before. *)
Theorem cell_edit_in_range_updates_field (self : State) (row_index : Z)
    (field : string) (new_value : pyval) :
  0 <= row_index < Z.of_nat (length (row_data self)) →
  let self' := on_cell_value_changed self row_index field new_value in
  ∃ r : dict_ref,
    row_data self !! Z.to_nat row_index = Some r ∧
    row_data self' = row_data self ∧
    selected_rows self' = selected_rows self ∧
    (∀ d, heap self !! r = Some d →
          ∃ d', heap self' !! r = Some d' ∧
                d' !! field = Some new_value ∧
                ∀ f, f ≠ field → d' !! f = d !! f) ∧
    (∀ r', r' ≠ r → heap self' !! r' = heap self !! r') ∧
    (∀ (rows : list dict_ref) (j : nat),
        rows !! j = Some r →
        row_at self' rows j = (fun d : row => <[field := new_value]> d) <$> row_at self rows j) ∧
    (∀ (rows : list dict_ref) (j : nat),
        rows !! j ≠ Some r → row_at self' rows j = row_at self rows j).
Proof.
  intros [Hlo Hhi] self'. subst self'. unfold on_cell_value_changed.
  apply Z.leb_le in Hlo as Hlo'. apply Z.ltb_lt in Hhi as Hhi'.
  rewrite Hlo', Hhi'. cbn [andb].
  assert (Z.to_nat row_index < length (row_data self))%nat as Hi by lia.
  destruct (lookup_lt_is_Some_2 _ _ Hi) as [r Hr]. rewrite Hr.
  exists r. cbn [heap row_data selected_rows].
  split; [reflexivity |]. split; [reflexivity |]. split; [reflexivity |].
  split; [|split; [|split]].
  - intros d Hd. exists (<[field := new_value]> d).
    rewrite lookup_alter_eq, Hd. split; [reflexivity |].
    split; [apply lookup_insert_eq |].
    intros f Hf. now rewrite lookup_insert_ne.
  - intros r' Hne. now rewrite lookup_alter_ne.
  - intros rows j Hj. unfold row_at. rewrite Hj. cbn [heap].
    apply lookup_alter_eq.
  - intros rows j Hj. unfold row_at. destruct (rows !! j) as [r'|]; [|reflexivity].
    cbn [heap]. rewrite lookup_alter_ne; [reflexivity |].
    intros ->. now apply Hj.
Qed.

(** Row 1 is also the selected row: after the edit the selection reads the
    new age. *)
Lemma cell_edit_in_range_updates_field_witness :
  0 <= 1 < Z.of_nat (length (row_data sample_state)) ∧
  ∃ r : dict_ref,
    row_data sample_state !! 1%nat = Some r ∧
    row_at (on_cell_value_changed sample_state 1 "age" (PInt 31))
      (selected_rows sample_state) 0
    = (fun d : row => <["age" := PInt 31]> d)
        <$> row_at sample_state (selected_rows sample_state) 0.
Proof.
  assert (0 <= 1 < Z.of_nat (length (row_data sample_state))) as H
    by (simpl; lia).
  split; [exact H |].
  destruct (cell_edit_in_range_updates_field sample_state 1 "age" (PInt 31) H)
    as (r & Hr & _ & _ & _ & _ & Halias & _).
  exists r. split; [exact Hr |].
  apply Halias. cbn in Hr. injection Hr as <-. reflexivity.
Defined.

End DemoFacts.
